(** * F1LiveStats: the dashboard refresh engine of [main.py]

    A shallow embedding of class [F1Dashboard]: its constructor, the timer
    callback [update_dashboard], the one-shot [plot_driver_positions] and the
    polling loop [fetch_live_positions].

    fastf1, pandas and matplotlib are not part of the repository.  Their
    objects and calls are the fields of the class [Library] below; every call
    that can raise returns a [result].  The Python semantics the methods rely
    on (local variables that may be unbound, [try]/[except] keeping the
    drawing done before the exception, attributes missing after an early
    return from [__init__]) is written out. *)

From Stdlib Require Import String List ZArith QArith Lia Bool DecimalString DecimalZ.
Import ListNotations.
Open Scope string_scope.
Open Scope Z_scope.

Set Implicit Arguments.

(** ** Exceptions and results *)

(** A Python exception: its class and [str(e)].  Only subclasses of
    [Exception] are modelled, so [except Exception] and a bare [except]
    catch the same values. *)
Record exn := Exn { exn_class : string; exn_msg : string }.

Inductive result (A : Type) : Type :=
| Ok (a : A)
| Raise (e : exn).
Arguments Ok {A} a.
Arguments Raise {A} e.

Definition AttributeError (msg : string) : exn := Exn "AttributeError" msg.
Definition TypeError (msg : string) : exn := Exn "TypeError" msg.
Definition UnboundLocalError (var : string) : exn :=
  Exn "UnboundLocalError"
      ("cannot access local variable '" ++ var ++
       "' where it is not associated with a value").

(** [str(n)] for an integer, as an f-string prints it. *)
Definition string_of_Z (z : Z) : string := NilZero.string_of_int (Z.to_int z).

(** A driver identifier as [session.drivers] lists them. *)
Definition Driver := string.

(** A key of the dictionary returned by [tire_strategies()]. *)
Inductive Key := KInt (n : Z) | KStr (s : string).

Definition key_str (k : Key) : string :=
  match k with KInt n => string_of_Z n | KStr s => s end.

(** [0.1 * driver]: defined for a number, a [TypeError] for a string.
    Coordinates are exact rationals; float rounding is not modelled. *)
Definition tenth_times (k : Key) : result Q :=
  match k with
  | KInt n => Ok ((1 # 10) * inject_Z n)%Q
  | KStr _ => Raise (TypeError "can't multiply sequence by non-int of type 'float'")
  end.

(** ** The external libraries *)

(** What [main.py] asks of fastf1 (session, laps, telemetry), of pandas
    (subscripts, [.dt.total_seconds()], [len]) and of matplotlib (the
    argument checks of the plotting calls). *)
Class Library := {
  Session : Type;
  Laps : Type;
  Lap : Type;
  Telemetry : Type;
  Circuit : Type;
  Value : Type;
  (* fastf1.get_session(year, event_name, 'Race') *)
  get_session : Z -> string -> string -> result Session;
  (* session.load() and session.load(live=True) *)
  session_load : bool -> Session -> result Session;
  (* the properties session.laps and session.drivers *)
  session_laps : Session -> result Laps;
  session_drivers : Session -> result (list Driver);
  (* session.get_circuit() and circuit.plot_track(ax=...) *)
  get_circuit : Session -> result Circuit;
  plot_track : Circuit -> result Value;
  circuit_getitem : Circuit -> string -> result Value;
  (* laps.pick_driver(d), laps.pick_fastest() (None is Python's None),
     laps.empty, laps.iloc[-1], laps.tire_strategies().items() *)
  pick_driver : Laps -> Driver -> result Laps;
  pick_fastest : Laps -> result (option Lap);
  laps_empty : Laps -> bool;
  iloc_last : Laps -> result Lap;
  tire_strategies : Laps -> result (list (Key * list string));
  (* lap[column], lap.get_pos_data(), lap.get_car_data() *)
  lap_getitem : Lap -> string -> result Value;
  get_pos_data : Lap -> result Telemetry;
  get_car_data : Lap -> result Telemetry;
  (* telemetry.add_distance(), telemetry.empty, telemetry[column] *)
  add_distance : Telemetry -> result Telemetry;
  tel_empty : Telemetry -> bool;
  tel_getitem : Telemetry -> string -> result Value;
  (* value.dt.total_seconds() and len(value) *)
  dt_total_seconds : Value -> result Value;
  py_len : Value -> result nat;
  (* argument checks of scatter(x, y), plot(x, y), bar(x, height),
     set_xticklabels(labels) *)
  scatter_check : Value -> Value -> result unit;
  plot_check : Value -> Value -> result unit;
  bar_check : Value -> Value -> result unit;
  xticklabels_check : Value -> result unit;
  (* argument check of pie(x, labels=...): the labels are a list of
     drivers or a value, see [DriversVar] *)
  pie_check : Value -> list Driver + Value -> result unit
}.

Section Dashboard.
Context {L : Library}.

(** ** Drawables *)

(** What the local variable [drivers] of [update_dashboard] can hold:
    [self.session.drivers] (a list) or [current_lap_times['Driver']]. *)
Definition DriversVar : Type := (list Driver + Value)%type.

(** What a plotting call leaves on an axes.  Colours, alignment and
    transforms are left out. *)
Inductive Artist : Type :=
| Scatter (xs ys : Value) (label : Driver)
| Line (xs ys : Value)
| Track (outline : Value)
| Legend
| Text (x y : Q) (s : string)
| Bar (labels heights : Value)
| XTickLabels (labels : Value)
| XLabel (s : string)
| YLabel (s : string)
| Pie (sizes : Value) (labels : DriversVar) (ncolors : nat).

Record Axes := { ax_title : string; ax_artists : list Artist }.

(** [ax.clear()] *)
Definition cleared : Axes := {| ax_title := ""; ax_artists := [] |}.

Definition set_title (t : string) (a : Axes) : Axes :=
  {| ax_title := t; ax_artists := ax_artists a |}.

Definition add_artist (x : Artist) (a : Axes) : Axes :=
  {| ax_title := ax_title a; ax_artists := ax_artists a ++ [x] |}.

(** [ax.text(0.5, 0.5, s, ...)]: text centred in the panel. *)
Definition centered (s : string) : Artist := Text (1 # 2) (1 # 2) s.

Inductive AxId := A1 | A2 | A3 | A4.

(** The figure made by [plt.subplots(2, 2, ...)]. *)
Record Figure := {
  ax1 : Axes; ax2 : Axes; ax3 : Axes; ax4 : Axes;
  facecolor : string;
  suptitle : string;
  tight : bool
}.

Definition get_ax (i : AxId) (f : Figure) : Axes :=
  match i with A1 => ax1 f | A2 => ax2 f | A3 => ax3 f | A4 => ax4 f end.

Definition set_ax (i : AxId) (a : Axes) (f : Figure) : Figure :=
  match i with
  | A1 => {| ax1 := a; ax2 := ax2 f; ax3 := ax3 f; ax4 := ax4 f;
             facecolor := facecolor f; suptitle := suptitle f; tight := tight f |}
  | A2 => {| ax1 := ax1 f; ax2 := a; ax3 := ax3 f; ax4 := ax4 f;
             facecolor := facecolor f; suptitle := suptitle f; tight := tight f |}
  | A3 => {| ax1 := ax1 f; ax2 := ax2 f; ax3 := a; ax4 := ax4 f;
             facecolor := facecolor f; suptitle := suptitle f; tight := tight f |}
  | A4 => {| ax1 := ax1 f; ax2 := ax2 f; ax3 := ax3 f; ax4 := a;
             facecolor := facecolor f; suptitle := suptitle f; tight := tight f |}
  end.

(** [plt.tight_layout()]. pyplot lays out its current figure, which is
    taken to be the figure of the dashboard. *)
Definition tight_layout (f : Figure) : Figure :=
  {| ax1 := ax1 f; ax2 := ax2 f; ax3 := ax3 f; ax4 := ax4 f;
     facecolor := facecolor f; suptitle := suptitle f; tight := true |}.

(** ** The frame of one call of [update_dashboard] *)

(** The figure being drawn and the two locals shared by the [try] blocks;
    [None] is a local that has not been assigned yet. *)
Record Frame := {
  fg : Figure;
  laps_var : option Laps;
  drivers_var : option DriversVar
}.

(** A statement: it transforms the frame and returns or raises.  The frame
    at the point of the exception is kept, as Python keeps it. *)
Definition M (A : Type) : Type := Frame -> Frame * result A.

Definition ret {A} (a : A) : M A := fun s => (s, Ok a).

Definition bind {A B} (m : M A) (k : A -> M B) : M B :=
  fun s => match m s with
           | (s', Ok a) => k a s'
           | (s', Raise e) => (s', Raise e)
           end.

Definition lift {A} (r : result A) : M A := fun s => (s, r).

(** [try: body except: handler] with a handler that catches everything. *)
Definition try_except (body : M unit) (handler : exn -> M unit) : M unit :=
  fun s => match body s with
           | (s', Ok tt) => (s', Ok tt)
           | (s', Raise e) => handler e s'
           end.

Notation "x <- m ;; k" := (bind m (fun x => k))
  (at level 61, m at next level, right associativity).
Notation "m ;;; k" := (bind m (fun _ => k))
  (at level 61, right associativity).

Fixpoint for_each {A} (l : list A) (body : A -> M unit) : M unit :=
  match l with
  | [] => ret tt
  | x :: r => body x ;;; for_each r body
  end.

Definition on_ax (i : AxId) (g : Axes -> Axes) : M unit :=
  fun s => ({| fg := set_ax i (g (get_ax i (fg s))) (fg s);
               laps_var := laps_var s; drivers_var := drivers_var s |}, Ok tt).

Definition ax_clear (i : AxId) : M unit := on_ax i (fun _ => cleared).
Definition ax_set_title (i : AxId) (t : string) : M unit := on_ax i (set_title t).
Definition draw (i : AxId) (x : Artist) : M unit := on_ax i (add_artist x).

Definition assign_laps (l : Laps) : M unit :=
  fun s => ({| fg := fg s; laps_var := Some l; drivers_var := drivers_var s |}, Ok tt).

Definition assign_drivers (d : DriversVar) : M unit :=
  fun s => ({| fg := fg s; laps_var := laps_var s; drivers_var := Some d |}, Ok tt).

Definition read_laps : M Laps :=
  fun s => (s, match laps_var s with
               | Some l => Ok l
               | None => Raise (UnboundLocalError "laps")
               end).

Definition read_drivers : M DriversVar :=
  fun s => (s, match drivers_var s with
               | Some d => Ok d
               | None => Raise (UnboundLocalError "drivers")
               end).

(** A method call and a subscript on the result of [pick_fastest()], which
    may be [None]. *)
Definition call_on {A} (meth : string) (f : Lap -> result A) (o : option Lap)
  : result A :=
  match o with
  | Some lap => f lap
  | None => Raise (AttributeError
                     ("'NoneType' object has no attribute '" ++ meth ++ "'"))
  end.

Definition subscript (o : option Lap) (col : string) : result Value :=
  match o with
  | Some lap => lap_getitem lap col
  | None => Raise (TypeError "'NoneType' object is not subscriptable")
  end.

(** The static placeholder of the three right-hand panels. *)
Definition placeholder (i : AxId) (t : string) : M unit :=
  draw i (centered "N/A") ;;; ax_set_title i t.

(** ** [update_dashboard], block by block *)

(** Lines 118-121: the body of the loop over the drivers. *)
Definition scatter_fastest (laps : Laps) (driver : Driver) : M unit :=
  driver_laps <- lift (pick_driver laps driver) ;;
  driver_lap <- lift (pick_fastest driver_laps) ;;
  pos_data <- lift (call_on "get_pos_data" get_pos_data driver_lap) ;;
  xs <- lift (tel_getitem pos_data "X") ;;
  ys <- lift (tel_getitem pos_data "Y") ;;
  lift (scatter_check xs ys) ;;;
  draw A1 (Scatter xs ys driver).

(** Lines 113-125: the Positions panel. *)
Definition positions_block (s : Session) : M unit :=
  try_except
    (laps <- lift (session_laps s) ;;
     assign_laps laps ;;;
     drivers <- lift (session_drivers s) ;;
     assign_drivers (inl drivers) ;;;
     for_each drivers (scatter_fastest laps) ;;;
     draw A1 Legend)
    (fun e => draw A1 (centered ("Error: " ++ exn_msg e))).

(** One row of the Tyre Strategies panel (lines 138-141). *)
Definition strategy_row (row : Key * list string) : M unit :=
  let (driver, strategy) := row in
  t <- lift (tenth_times driver) ;;
  draw A2 (Text (1 # 10) ((9 # 10) - t)
             (key_str driver ++ ": " ++ String.concat " → " strategy)).

(** Lines 132-148: the Tyre Strategies panel. *)
Definition tyre_block (s : Session) : M unit :=
  try_except
    (laps <- lift (session_laps s) ;;
     assign_laps laps ;;;
     tyre_strategies <- lift (tire_strategies laps) ;;
     for_each tyre_strategies strategy_row ;;;
     ax_set_title A2 "Tyre Strategies")
    (fun _ => placeholder A2 "Tyre Strategies").

(** Lines 150-164: the Lap Times panel.  It reads the local [laps] and
    rebinds the local [drivers]. *)
Definition lap_times_block : M unit :=
  try_except
    (laps <- read_laps ;;
     current_lap_times <- lift (pick_fastest laps) ;;
     lap_time <- lift (subscript current_lap_times "LapTime") ;;
     times <- lift (dt_total_seconds lap_time) ;;
     drivers <- lift (subscript current_lap_times "Driver") ;;
     assign_drivers (inr drivers) ;;;
     lift (bar_check drivers times) ;;;
     draw A3 (Bar drivers times) ;;;
     lift (xticklabels_check drivers) ;;;
     draw A3 (XTickLabels drivers) ;;;
     draw A3 (YLabel "Lap Time (seconds)") ;;;
     ax_set_title A3 "Current Lap Times")
    (fun _ => placeholder A3 "Current Lap Times").

(** Lines 166-177: the Driver Positions pie.  It reads the locals [laps]
    and [drivers]. *)
Definition standings_block : M unit :=
  try_except
    (laps <- read_laps ;;
     fastest <- lift (pick_fastest laps) ;;
     positions <- lift (subscript fastest "Position") ;;
     drivers <- read_drivers ;;
     n <- lift (py_len positions) ;;
     lift (pie_check positions drivers) ;;;
     draw A4 (Pie positions drivers n) ;;;
     ax_set_title A4 "Driver Positions")
    (fun _ => placeholder A4 "Driver Positions").

(** The body of [update_dashboard] once [self.ax1] is known to exist. *)
Definition update_body (s : Session) : M unit :=
  ax_clear A1 ;;;
  ax_set_title A1 "Live Driver Positions" ;;;
  positions_block s ;;;
  for_each [A2; A3; A4] ax_clear ;;;
  tyre_block s ;;;
  lap_times_block ;;;
  standings_block.

(** ** The dashboard object *)

(** The timer of [animation.FuncAnimation]: its interval in milliseconds
    and the number of the next frame it will pass to the callback. *)
Record Animation := { interval : Z; next_frame : nat }.

(** An [F1Dashboard].  [fig] holds [self.fig] and the four axes, which
    [__init__] assigns in one statement; [None] is an attribute that was
    never assigned.  [console] is what the methods have printed. *)
Record F1Dashboard := {
  year : Z;
  event_name : string;
  session : Session;
  fig : option Figure;
  track_plot : option Value;
  animation : option Animation;
  console : list string
}.

Definition with_fig (f : Figure) (d : F1Dashboard) : F1Dashboard :=
  {| year := year d; event_name := event_name d; session := session d;
     fig := Some f; track_plot := track_plot d; animation := animation d;
     console := console d |}.

Definition no_attribute (name : string) : exn :=
  AttributeError ("'F1Dashboard' object has no attribute '" ++ name ++ "'").

Definition start_frame (f : Figure) : Frame :=
  {| fg := f; laps_var := None; drivers_var := None |}.

(** [update_dashboard(self, frame)], lines 109-179. *)
Definition update_dashboard (d : F1Dashboard) (frame : nat) : result F1Dashboard :=
  match fig d with
  | None => Raise (no_attribute "ax1")
  | Some f =>
      match update_body (session d) (start_frame f) with
      | (s, Ok tt) => Ok (with_fig (tight_layout (fg s)) d)
      | (_, Raise e) => Raise e
      end
  end.

(** ** The constructor *)

Definition blank_figure (dark_mode : bool) (title : string) : Figure :=
  {| ax1 := cleared; ax2 := cleared; ax3 := cleared; ax4 := cleared;
     facecolor := if dark_mode then "black" else "white";
     suptitle := title;
     tight := false |}.

(** Lines 39-47: the track layout drawn on [ax1], or its placeholder. *)
Definition track_layout (s : Session) (f : Figure) : Figure * option Value :=
  match get_circuit s with
  | Ok c =>
      match plot_track c with
      | Ok v => (set_ax A1 (set_title "Track Layout"
                              (add_artist (Track v) (ax1 f))) f, Some v)
      | Raise _ => (set_ax A1 (set_title "Track Layout"
                                 (add_artist (centered "N/A") (ax1 f))) f, None)
      end
  | Raise _ => (set_ax A1 (set_title "Track Layout"
                             (add_artist (centered "N/A") (ax1 f))) f, None)
  end.

(** [F1Dashboard.__init__(year, event_name, dark_mode)], lines 9-57.  When
    [session.load()] raises the constructor prints and returns at line 25:
    the object exists, without figure, axes or animation. *)
Definition init (yr : Z) (ev : string) (dark_mode : bool) : result F1Dashboard :=
  match get_session yr ev "Race" with
  | Raise e => Raise e
  | Ok s =>
      match session_load false s with
      | Raise e =>
          Ok {| year := yr; event_name := ev; session := s;
                fig := None; track_plot := None; animation := None;
                console := ["Error loading session: " ++ exn_msg e] |}
      | Ok s' =>
          let title := "F1 Live Dashboard - " ++ string_of_Z yr ++ " " ++ ev in
          let (f, tp) := track_layout s' (blank_figure dark_mode title) in
          Ok {| year := yr; event_name := ev; session := s';
                fig := Some f; track_plot := tp;
                animation := Some {| interval := 5000; next_frame := 0 |};
                console := [] |}
      end
  end.

(** ** The timer *)

(** One fire of the animation timer: the callback runs with the next frame
    number.  An object without [animation] has no timer, nothing runs. *)
Definition timer_fire (d : F1Dashboard) : result F1Dashboard :=
  match animation d with
  | None => Ok d
  | Some a =>
      match update_dashboard d (next_frame a) with
      | Ok d' =>
          Ok {| year := year d'; event_name := event_name d';
                session := session d'; fig := fig d';
                track_plot := track_plot d';
                animation := Some {| interval := interval a;
                                     next_frame := S (next_frame a) |};
                console := console d' |}
      | Raise e => Raise e
      end
  end.

(** [n] consecutive fires. *)
Fixpoint timer_fires (n : nat) (d : F1Dashboard) : result F1Dashboard :=
  match n with
  | O => Ok d
  | S k => match timer_fire d with
           | Ok d' => timer_fires k d'
           | Raise e => Raise e
           end
  end.

(** The number of callback runs so far: the frame counter of the timer. *)
Definition ticks (d : F1Dashboard) : nat :=
  match animation d with Some a => next_frame a | None => O end.

(** ** The one-shot plot and the polling loop *)

Definition rbind {A B} (r : result A) (k : A -> result B) : result B :=
  match r with Ok a => k a | Raise e => Raise e end.

(** Lines 76-83: one scatter per driver, from the latest lap. *)
Fixpoint scatter_latest (laps : Laps) (drivers : list Driver) (a : Axes)
  : result Axes :=
  match drivers with
  | [] => Ok a
  | driver :: rest =>
      rbind (pick_driver laps driver) (fun driver_laps =>
      if laps_empty driver_laps then scatter_latest laps rest a
      else
        rbind (iloc_last driver_laps) (fun driver_lap =>
        rbind (get_car_data driver_lap) (fun car_data =>
        rbind (add_distance car_data) (fun pos_data =>
        if tel_empty pos_data then scatter_latest laps rest a
        else
          rbind (tel_getitem pos_data "X") (fun xs =>
          rbind (tel_getitem pos_data "Y") (fun ys =>
          rbind (scatter_check xs ys) (fun _ =>
          scatter_latest laps rest (add_artist (Scatter xs ys driver) a))))))))
  end.

(** Lines 69-73: the track outline, or a printed line. *)
Definition track_outline (s : Session) : Axes * list string :=
  match rbind (get_circuit s) (fun track_data =>
        rbind (circuit_getitem track_data "X") (fun xs =>
        rbind (circuit_getitem track_data "Y") (fun ys =>
        rbind (plot_check xs ys) (fun _ => Ok (Line xs ys))))) with
  | Ok l => (add_artist l cleared, [])
  | Raise _ => (cleared, ["No track layout available."])
  end.

(** [plot_driver_positions(self)], lines 59-89: the axes of the new pyplot
    figure and the lines printed. *)
Definition plot_driver_positions (d : F1Dashboard)
  : result (Axes * list string) :=
  rbind (session_laps (session d)) (fun laps =>
  rbind (session_drivers (session d)) (fun drivers =>
  let (a0, out) := track_outline (session d) in
  rbind (scatter_latest laps drivers a0) (fun a =>
  Ok (set_title ("Driver Positions - " ++ event_name d ++ " "
                   ++ string_of_Z (year d))
        (add_artist Legend
           (add_artist (YLabel "Y Coordinate")
              (add_artist (XLabel "X Coordinate") a))), out)))).

(** What a method call can come to. [Running] is a call that has not come
    back when the fuel of the model ran out. *)
Inductive Outcome (A : Type) : Type :=
| Returned (a : A)
| Raised (e : exn) (a : A)
| Running (a : A).
Arguments Returned {A} a.
Arguments Raised {A} e a.
Arguments Running {A} a.

(** The dashboard together with the pyplot figure the polling loop draws
    on, taken as an axes of its own. *)
Record World := { self : F1Dashboard; pyplot : Axes }.

Definition with_session (s : Session) (d : F1Dashboard) : F1Dashboard :=
  {| year := year d; event_name := event_name d; session := s;
     fig := fig d; track_plot := track_plot d; animation := animation d;
     console := console d |}.

Definition print (line : string) (d : F1Dashboard) : F1Dashboard :=
  {| year := year d; event_name := event_name d; session := session d;
     fig := fig d; track_plot := track_plot d; animation := animation d;
     console := console d ++ [line] |}.

(** Lines 99-104: the body of the loop over the drivers, with its own
    [try]. Every call that can raise comes before the one drawing call. *)
Definition live_row (w : World) (driver : Driver) : World :=
  match rbind (session_laps (session (self w))) (fun laps =>
        rbind (pick_driver laps driver) (fun driver_laps =>
        rbind (pick_fastest driver_laps) (fun driver_lap =>
        rbind (call_on "get_pos_data" get_pos_data driver_lap) (fun pos_data =>
        rbind (tel_getitem pos_data "X") (fun xs =>
        rbind (tel_getitem pos_data "Y") (fun ys =>
        rbind (scatter_check xs ys) (fun _ => Ok (Scatter xs ys driver)))))))) with
  | Ok sc => {| self := self w; pyplot := add_artist sc (pyplot w) |}
  | Raise _ => {| self := print ("No data for " ++ driver) (self w);
                  pyplot := pyplot w |}
  end.

(** Lines 94-107: one iteration of [while True]. It comes to [Returned]
    when the iteration reached its end, and to [Raised] when
    [session.load] or [session.drivers] raised. *)
Definition live_iteration (w : World) : Outcome World :=
  match session_load true (session (self w)) with
  | Raise e => Raised e w
  | Ok s =>
      let w1 := {| self := with_session s (self w); pyplot := cleared |} in
      match session_drivers s with
      | Raise e => Raised e w1
      | Ok drivers =>
          let w2 := fold_left live_row drivers w1 in
          Returned {| self := self w2; pyplot := add_artist Legend (pyplot w2) |}
      end
  end.

(** [fetch_live_positions(self)], lines 92-107. The loop has no exit: after
    an iteration the only continuation is the next iteration. *)
Fixpoint fetch_live_positions (fuel : nat) (w : World) : Outcome World :=
  match fuel with
  | O => Running w
  | S k =>
      match live_iteration w with
      | Returned w' => fetch_live_positions k w'
      | Raised e w' => Raised e w'
      | Running w' => Running w'
      end
  end.

(** ** The methods of the class *)

Inductive Method :=
| m_plot_driver_positions
| m_fetch_live_positions
| m_update_dashboard
| m_show.

(** Attribute lookup on the class body, lines 8-182. *)
Definition lookup_method (name : string) : option Method :=
  if String.eqb name "plot_driver_positions" then Some m_plot_driver_positions
  else if String.eqb name "fetch_live_positions" then Some m_fetch_live_positions
  else if String.eqb name "update_dashboard" then Some m_update_dashboard
  else if String.eqb name "show" then Some m_show
  else None.

Definition call (fuel : nat) (m : Method) (frame : nat) (w : World)
  : Outcome World :=
  match m with
  | m_plot_driver_positions =>
      match plot_driver_positions (self w) with
      | Ok (a, out) =>
          Returned {| self := fold_left (fun d l => print l d) out (self w);
                      pyplot := a |}
      | Raise e => Raised e w
      end
  | m_fetch_live_positions => fetch_live_positions fuel w
  | m_update_dashboard =>
      match update_dashboard (self w) frame with
      | Ok d => Returned {| self := d; pyplot := pyplot w |}
      | Raise e => Raised e w
      end
  | m_show => Returned w
  end.

(** [getattr(dashboard, name)(...)]. *)
Definition invoke (fuel : nat) (name : string) (frame : nat) (w : World)
  : Outcome World :=
  match lookup_method name with
  | Some m => call fuel m frame w
  | None => Raised (no_attribute name) w
  end.

End Dashboard.

(** ** Reading a panel *)

Section Views.
Context {L : Library}.

(** A view model: one of two variants. *)
Inductive ViewModel (P : Type) : Type :=
| Ready (payload : P)
| Unavailable.
Arguments Ready {P} payload.
Arguments Unavailable {P}.

Definition is_NA (x : Artist) : bool :=
  match x with Text _ _ s => String.eqb s "N/A" | _ => false end.

Definition is_text (x : Artist) : bool :=
  match x with Text _ _ _ => true | _ => false end.

(** A right-hand panel shows its placeholder. *)
Definition shows_NA (a : Axes) : bool := existsb is_NA (ax_artists a).

(** The Positions panel shows a text, which it only does in its handler. *)
Definition shows_error (a : Axes) : bool := existsb is_text (ax_artists a).

(** The static placeholder panel with title [t]. *)
Definition na_panel (t : string) : Axes :=
  {| ax_title := t; ax_artists := [centered "N/A"] |}.

(** Every panel of the figure is the static placeholder under a title. *)
Definition all_placeholders (f : Figure) : Prop :=
  forall i, exists t, get_ax i f = na_panel t.

End Views.

Arguments Ready {P} payload.
Arguments Unavailable {P}.

(** ** A provider over the data model of the spec *)

Module Ref.

(** Modelled from the spec: the lap record of section 3, which stands for
    a row of the fastf1 laps table.  The participant is a car number, the
    lap time is in milliseconds, [None] is a lap time that converts to no
    number of seconds. *)
Record LapRecord := {
  participant : Z;
  lapTime : option Z;
  tireCompoundSequence : list string;
  position : Z;
  positionSamples : list (Z * Z)
}.

(** Modelled from the spec: the session snapshot of section 3, which
    stands for the data a loaded fastf1 session holds. *)
Record Snapshot := {
  participants : list Z;
  laps : list LapRecord;
  trackGeometry : option (list (Z * Z))
}.

(** What the provider has for one [load]: it is unreachable, it answers
    without timing data, or it answers with a snapshot. *)
Inductive FeedItem := Down | NoData | Data (s : Snapshot).

(** The session object: the provider behind it, the number of [load]
    calls so far and the data of the last successful one. *)
Record RSession := {
  feed : nat -> FeedItem;
  loads : nat;
  current : option Snapshot
}.

(** A cell of a column. *)
Inductive Cell := CInt (n : Z) | CNum (q : Q) | CStr (s : string) | CDur (ms : Z) | CNaT.

Definition Column := list Cell.

(** The four views, and the fault that makes the derivation of one of them
    always fail. *)
Inductive View := Positions | TireStrategy | LapTimes | Standings.

Definition view_eqb (a b : View) : bool :=
  match a, b with
  | Positions, Positions | TireStrategy, TireStrategy
  | LapTimes, LapTimes | Standings, Standings => true
  | _, _ => false
  end.

Definition injected (fault : option View) (v : View) : bool :=
  match fault with Some w => view_eqb w v | None => false end.

Definition KeyError (k : string) : exn := Exn "KeyError" k.
Definition ValueError (m : string) : exn := Exn "ValueError" m.
Definition Injected : exn := Exn "RuntimeError" "injected fault".

(** [session.load]: asks the provider once more. *)
Definition r_load (s : RSession) : result RSession :=
  match feed s (loads s) with
  | Down => Raise (Exn "ConnectionError" "session unreachable")
  | NoData => Ok {| feed := feed s; loads := S (loads s); current := None |}
  | Data d => Ok {| feed := feed s; loads := S (loads s); current := Some d |}
  end.

Definition not_loaded {A} : result A :=
  Raise (Exn "DataNotLoadedError"
           "The data you are trying to access has not been loaded yet.").

Definition r_laps (s : RSession) : result (list LapRecord) :=
  match current s with Some d => Ok (laps d) | None => not_loaded end.

Definition r_drivers (s : RSession) : result (list Driver) :=
  match current s with
  | Some d => Ok (map string_of_Z (participants d))
  | None => not_loaded
  end.

Definition r_circuit (s : RSession) : result (list (Z * Z)) :=
  match current s with
  | Some d => match trackGeometry d with
              | Some g => Ok g
              | None => Raise (Exn "AttributeError" "no circuit")
              end
  | None => not_loaded
  end.

Definition xs_of (pts : list (Z * Z)) : Column := map (fun p => CInt (fst p)) pts.
Definition ys_of (pts : list (Z * Z)) : Column := map (fun p => CInt (snd p)) pts.

Definition points_getitem (pts : list (Z * Z)) (col : string) : result Column :=
  if String.eqb col "X" then Ok (xs_of pts)
  else if String.eqb col "Y" then Ok (ys_of pts)
  else Raise (KeyError col).

(** [laps.pick_driver(d)]: the laps of one driver, in table order. *)
Definition r_pick_driver (l : list LapRecord) (d : Driver) : list LapRecord :=
  filter (fun x => String.eqb (string_of_Z (participant x)) d) l.

(** [laps.pick_fastest()]: the lap with the smallest lap time, the first
    of them in table order; [None] when no lap has a lap time. *)
Fixpoint fastest (l : list LapRecord) : option LapRecord :=
  match l with
  | [] => None
  | x :: r =>
      match lapTime x, fastest r with
      | None, o => o
      | Some _, None => Some x
      | Some t, Some y =>
          match lapTime y with
          | Some u => if t <=? u then Some x else Some y
          | None => Some x
          end
      end
  end.

(** [laps.iloc[-1]]: the last lap of the table. *)
Definition r_iloc_last (l : list LapRecord) : result LapRecord :=
  match rev l with
  | x :: _ => Ok x
  | [] => Raise (Exn "IndexError" "single positional indexer is out-of-bounds")
  end.

Definition memZ (n : Z) (l : list Z) : bool := existsb (Z.eqb n) l.

(** Modelled from the spec: the tyre strategies of section 4.2, one row per
    participant that has a compound sequence, none for the others, and a
    failure when no participant has one. *)
Fixpoint strategy_rows (seen : list Z) (l : list LapRecord)
  : list (Key * list string) :=
  match l with
  | [] => []
  | x :: r =>
      match tireCompoundSequence x with
      | [] => strategy_rows seen r
      | seq =>
          if memZ (participant x) seen then strategy_rows seen r
          else (KInt (participant x), seq)
                 :: strategy_rows (participant x :: seen) r
      end
  end.

Definition r_tire_strategies (l : list LapRecord)
  : result (list (Key * list string)) :=
  match strategy_rows [] l with
  | [] => Raise (ValueError "no strategy data")
  | rows => Ok rows
  end.

Definition r_lap_getitem (x : LapRecord) (col : string) : result Column :=
  if String.eqb col "LapTime" then
    Ok [match lapTime x with Some ms => CDur ms | None => CNaT end]
  else if String.eqb col "Driver" then Ok [CStr (string_of_Z (participant x))]
  else if String.eqb col "Position" then Ok [CInt (position x)]
  else Raise (KeyError col).

(** [.dt.total_seconds()] on a column of durations. *)
Fixpoint r_total_seconds (c : Column) : result Column :=
  match c with
  | [] => Ok []
  | CDur ms :: r =>
      match r_total_seconds r with
      | Ok r' => Ok (CNum (ms # 1000) :: r')
      | Raise e => Raise e
      end
  | _ :: _ => Raise (TypeError "not a duration")
  end.

Definition same_length (a b : nat) : result unit :=
  if Nat.eqb a b then Ok tt
  else Raise (ValueError "arguments must have the same length").

Definition labels_length (d : list Driver + Column) : nat :=
  match d with inl l => length l | inr c => length c end.

Definition guard {A} (broken : bool) (r : result A) : result A :=
  if broken then Raise Injected else r.

(** Modelled from the spec: the telemetry provider of section 6 over the
    snapshot of section 3, with the plotting calls checking that their
    arguments have the same length.  [fault] makes one call that only the
    named view uses raise on every call. *)
Definition lib (provider : nat -> FeedItem) (fault : option View) : Library := {|
  Session := RSession;
  Laps := list LapRecord;
  Lap := LapRecord;
  Telemetry := list (Z * Z);
  Circuit := list (Z * Z);
  Value := Column;
  get_session := fun _ _ _ => Ok {| feed := provider; loads := O; current := None |};
  session_load := fun _ => r_load;
  session_laps := r_laps;
  session_drivers := r_drivers;
  get_circuit := r_circuit;
  plot_track := fun c => Ok (xs_of c);
  circuit_getitem := points_getitem;
  pick_driver := fun l d => Ok (r_pick_driver l d);
  pick_fastest := fun l => Ok (fastest l);
  laps_empty := fun l => match l with [] => true | _ => false end;
  iloc_last := r_iloc_last;
  tire_strategies := fun l => guard (injected fault TireStrategy) (r_tire_strategies l);
  lap_getitem := fun x col =>
    guard (injected fault Standings && String.eqb col "Position") (r_lap_getitem x col);
  get_pos_data := fun x => guard (injected fault Positions) (Ok (positionSamples x));
  get_car_data := fun x => Ok (positionSamples x);
  add_distance := fun t => Ok t;
  tel_empty := fun t => match t with [] => true | _ => false end;
  tel_getitem := points_getitem;
  dt_total_seconds := fun c => guard (injected fault LapTimes) (r_total_seconds c);
  py_len := fun c => Ok (length c);
  scatter_check := fun x y => same_length (length x) (length y);
  plot_check := fun x y => same_length (length x) (length y);
  bar_check := fun x h => same_length (length x) (length h);
  xticklabels_check := fun _ => Ok tt;
  pie_check := fun x labels => same_length (length x) (labels_length labels)
|}.

(** Scenario A of the spec, section 8; car 1 is classified first and car 44
    second. *)
Definition scenarioA : Snapshot := {|
  participants := [1; 44];
  laps := [ {| participant := 1; lapTime := Some 92500;
               tireCompoundSequence := ["Soft"; "Medium"];
               position := 1; positionSamples := [(10, 20); (11, 21)] |};
            {| participant := 44; lapTime := Some 91800;
               tireCompoundSequence := ["Medium"; "Hard"];
               position := 2; positionSamples := [(30, 40)] |} ];
  trackGeometry := None
|}.

(** The dashboard of the example usage, line 185. *)
Definition boot (provider : nat -> FeedItem) (fault : option View)
  : result (@F1Dashboard (lib provider fault)) :=
  @init (lib provider fault) 2024 "Japan" true.

End Ref.

(** * Properties *)

Create HintDb frames.

Section Properties.
Context {L : Library}.

(** ** Axes of a figure *)

Lemma get_set_ax_same (i : AxId) (a : Axes) (f : Figure) :
  get_ax i (set_ax i a f) = a.
Proof. destruct i; reflexivity. Qed.

Lemma get_set_ax_other (i j : AxId) (a : Axes) (f : Figure) :
  j <> i -> get_ax j (set_ax i a f) = get_ax j f.
Proof. destruct i, j; simpl; intros H; try reflexivity; congruence. Qed.

Lemma figure_ext (f g : Figure) :
  (forall i, get_ax i f = get_ax i g) ->
  facecolor f = facecolor g -> suptitle f = suptitle g ->
  tight_layout f = tight_layout g.
Proof.
  intros H Hc Ht. unfold tight_layout.
  rewrite (H A1 : ax1 f = ax1 g), (H A2 : ax2 f = ax2 g),
          (H A3 : ax3 f = ax3 g), (H A4 : ax4 f = ax4 g), Hc, Ht.
  reflexivity.
Qed.

(** ** Statements that always return *)

Definition always_ok (m : M unit) : Prop := forall fr, snd (m fr) = Ok tt.

Lemma always_ok_on_ax i g : always_ok (on_ax i g).
Proof. intros fr. reflexivity. Qed.

Lemma always_ok_bind (m k : M unit) :
  always_ok m -> always_ok k -> always_ok (bind m (fun _ => k)).
Proof.
  intros Hm Hk fr. unfold bind. specialize (Hm fr).
  destruct (m fr) as [s' r]. simpl in Hm. subst r. apply Hk.
Qed.

Lemma always_ok_try body handler :
  (forall e, always_ok (handler e)) -> always_ok (try_except body handler).
Proof.
  intros H fr. unfold try_except.
  destruct (body fr) as [s' [[]|e]]; [reflexivity | apply H].
Qed.

Lemma always_ok_for_each {A} (l : list A) body :
  (forall x, always_ok (body x)) -> always_ok (for_each l body).
Proof.
  intros H. induction l as [|x r IH]; simpl.
  - intros fr. reflexivity.
  - apply always_ok_bind; auto.
Qed.

Lemma always_ok_placeholder i t : always_ok (placeholder i t).
Proof. apply always_ok_bind; apply always_ok_on_ax. Qed.

#[local] Hint Resolve always_ok_on_ax always_ok_bind always_ok_try
  always_ok_for_each always_ok_placeholder : frames.

Lemma update_body_ok (s : Session) : always_ok (update_body s).
Proof.
  unfold update_body, positions_block, tyre_block, lap_times_block,
    standings_block, ax_clear, ax_set_title, draw.
  repeat (apply always_ok_bind || apply always_ok_try
          || apply always_ok_for_each || intro);
    auto with frames.
Qed.

(** The callback returns on every object that has its figure: it keeps the
    session, the timer and the console, and replaces the figure. *)
Lemma update_dashboard_returns (d : F1Dashboard) (frame : nat) (f : Figure) :
  fig d = Some f ->
  update_dashboard d frame =
    Ok (with_fig (tight_layout (fg (fst (update_body (session d) (start_frame f))))) d).
Proof.
  intros Hf. unfold update_dashboard. rewrite Hf.
  pose proof (update_body_ok (session d) (start_frame f)) as H.
  destruct (update_body (session d) (start_frame f)) as [s r].
  simpl in H. subst r. reflexivity.
Qed.

(** ** The axes a statement draws on *)

(** [within S m]: [m] leaves the face colour, the title of the figure and
    every axes outside [S] as they were. *)
Definition within (S : AxId -> bool) {A} (m : M A) : Prop :=
  forall fr,
    facecolor (fg (fst (m fr))) = facecolor (fg fr) /\
    suptitle (fg (fst (m fr))) = suptitle (fg fr) /\
    forall j, S j = false -> get_ax j (fg (fst (m fr))) = get_ax j (fg fr).

Definition axid_eqb (i j : AxId) : bool :=
  match i, j with
  | A1, A1 | A2, A2 | A3, A3 | A4, A4 => true
  | _, _ => false
  end.

Lemma axid_eqb_false i j : axid_eqb i j = false -> j <> i.
Proof. destruct i, j; simpl; congruence. Qed.

Lemma within_ret S {A} (a : A) : within S (ret a).
Proof. intros fr. simpl. auto. Qed.

Lemma within_lift S {A} (r : result A) : within S (lift r).
Proof. intros fr. simpl. auto. Qed.

Lemma within_on_ax S i g : S i = true -> within S (on_ax i g).
Proof.
  intros Hi fr. simpl. repeat split; try (destruct i; reflexivity).
  intros j Hj. apply get_set_ax_other. congruence.
Qed.

Lemma within_assign_laps S l : within S (assign_laps l).
Proof. intros fr. simpl. auto. Qed.

Lemma within_assign_drivers S d : within S (assign_drivers d).
Proof. intros fr. simpl. auto. Qed.

Lemma within_read_laps S : within S read_laps.
Proof. intros fr. simpl. auto. Qed.

Lemma within_read_drivers S : within S read_drivers.
Proof. intros fr. simpl. auto. Qed.

Lemma within_bind S {A B} (m : M A) (k : A -> M B) :
  within S m -> (forall a, within S (k a)) -> within S (bind m k).
Proof.
  intros Hm Hk fr. unfold bind. specialize (Hm fr).
  destruct (m fr) as [s' [a|e]]; simpl in *.
  - destruct (Hk a s') as (H1 & H2 & H3). destruct Hm as (G1 & G2 & G3).
    repeat split; try congruence.
    intros j Hj. rewrite H3, G3; auto.
  - exact Hm.
Qed.

Lemma within_try S body handler :
  within S body -> (forall e, within S (handler e)) ->
  within S (try_except body handler).
Proof.
  intros Hm Hk fr. unfold try_except. specialize (Hm fr).
  destruct (body fr) as [s' [[]|e]]; simpl in *.
  - exact Hm.
  - destruct (Hk e s') as (H1 & H2 & H3). destruct Hm as (G1 & G2 & G3).
    repeat split; try congruence.
    intros j Hj. rewrite H3, G3; auto.
Qed.

Lemma within_for_each S {A} (l : list A) body :
  (forall x, within S (body x)) -> within S (for_each l body).
Proof.
  intros H. induction l as [|x r IH]; simpl.
  - apply within_ret.
  - apply within_bind; auto.
Qed.

Lemma within_weaken (S T : AxId -> bool) {A} (m : M A) :
  (forall j, S j = true -> T j = true) -> within S m -> within T m.
Proof.
  intros Hst Hm fr. destruct (Hm fr) as (H1 & H2 & H3).
  repeat split; auto. intros j Hj. apply H3.
  destruct (S j) eqn:E; auto. rewrite (Hst j E) in Hj. discriminate.
Qed.

Ltac within_tac :=
  repeat first
    [ apply within_bind | apply within_try | apply within_for_each
    | apply within_ret | apply within_lift | apply within_assign_laps
    | apply within_assign_drivers | apply within_read_laps
    | apply within_read_drivers | apply within_on_ax; reflexivity
    | match goal with |- forall _, _ => intro end ].

Lemma within_strategy_row row : within (axid_eqb A2) (strategy_row row).
Proof. destruct row as [driver strategy]. unfold strategy_row, draw. within_tac. Qed.

Lemma within_positions_block s : within (axid_eqb A1) (positions_block s).
Proof. unfold positions_block, scatter_fastest, draw. within_tac. Qed.

Lemma within_tyre_block s : within (axid_eqb A2) (tyre_block s).
Proof.
  unfold tyre_block, placeholder, draw, ax_set_title.
  within_tac. apply within_strategy_row.
Qed.

Lemma within_lap_times_block : within (axid_eqb A3) lap_times_block.
Proof. unfold lap_times_block, placeholder, draw, ax_set_title. within_tac. Qed.

Lemma within_standings_block : within (axid_eqb A4) standings_block.
Proof. unfold standings_block, placeholder, draw, ax_set_title. within_tac. Qed.

Lemma within_update_body s : within (fun _ => true) (update_body s).
Proof.
  unfold update_body, ax_clear, ax_set_title.
  apply within_bind; [apply within_on_ax; reflexivity | intros _].
  apply within_bind; [apply within_on_ax; reflexivity | intros _].
  apply within_bind; [|intros _].
  { eapply within_weaken; [|apply within_positions_block]. reflexivity. }
  apply within_bind; [|intros _].
  { apply within_for_each. intro. apply within_on_ax. reflexivity. }
  apply within_bind; [|intros _].
  { eapply within_weaken; [|apply within_tyre_block]. reflexivity. }
  apply within_bind; [|intros _].
  { eapply within_weaken; [|apply within_lap_times_block]. reflexivity. }
  eapply within_weaken; [|apply within_standings_block]. reflexivity.
Qed.

(** ** Statements that do not look at what was drawn before *)

(** Two frames agree on [S]: same locals, same figure style, same axes
    inside [S]. *)
Definition agree (S : AxId -> bool) (a b : Frame) : Prop :=
  laps_var a = laps_var b /\ drivers_var a = drivers_var b /\
  facecolor (fg a) = facecolor (fg b) /\ suptitle (fg a) = suptitle (fg b) /\
  forall i, S i = true -> get_ax i (fg a) = get_ax i (fg b).

Definition respects {A} (m : M A) : Prop :=
  forall S a b, agree S a b ->
    agree S (fst (m a)) (fst (m b)) /\ snd (m a) = snd (m b).

Lemma respects_ret {A} (x : A) : respects (ret x).
Proof. intros S a b H. simpl. auto. Qed.

Lemma respects_lift {A} (r : result A) : respects (lift r).
Proof. intros S a b H. simpl. auto. Qed.

Lemma respects_on_ax i g : respects (on_ax i g).
Proof.
  intros S a b (H1 & H2 & H3 & H4 & H5). simpl. split; [|reflexivity].
  unfold agree; simpl. repeat split; auto; try (destruct i; assumption).
  intros j Hj. destruct (axid_eqb i j) eqn:E.
  - assert (j = i) by (destruct i, j; simpl in E; congruence). subst j.
    rewrite !get_set_ax_same. rewrite (H5 i Hj). reflexivity.
  - apply axid_eqb_false in E. rewrite !get_set_ax_other by assumption. auto.
Qed.

Lemma respects_assign_laps l : respects (assign_laps l).
Proof. intros S a b (H1 & H2 & H3 & H4 & H5). simpl. unfold agree; simpl. auto 10. Qed.

Lemma respects_assign_drivers d : respects (assign_drivers d).
Proof. intros S a b (H1 & H2 & H3 & H4 & H5). simpl. unfold agree; simpl. auto 10. Qed.

Lemma respects_read_laps : respects read_laps.
Proof.
  intros S a b H. pose proof H as (H1 & _). simpl. rewrite H1. auto.
Qed.

Lemma respects_read_drivers : respects read_drivers.
Proof.
  intros S a b H. pose proof H as (_ & H2 & _). simpl. rewrite H2. auto.
Qed.

Lemma respects_bind {A B} (m : M A) (k : A -> M B) :
  respects m -> (forall x, respects (k x)) -> respects (bind m k).
Proof.
  intros Hm Hk S a b H. unfold bind. destruct (Hm S a b H) as [Hf Hs].
  destruct (m a) as [a' ra], (m b) as [b' rb]. simpl in *. subst rb.
  destruct ra as [x|e]; [apply Hk; assumption | auto].
Qed.

Lemma respects_try body handler :
  respects body -> (forall e, respects (handler e)) ->
  respects (try_except body handler).
Proof.
  intros Hm Hk S a b H. unfold try_except. destruct (Hm S a b H) as [Hf Hs].
  destruct (body a) as [a' ra], (body b) as [b' rb]. simpl in *. subst rb.
  destruct ra as [[]|e]; [auto | apply Hk; assumption].
Qed.

Lemma respects_for_each {A} (l : list A) body :
  (forall x, respects (body x)) -> respects (for_each l body).
Proof.
  intros H. induction l as [|x r IH]; simpl.
  - apply respects_ret.
  - apply respects_bind; auto.
Qed.

Ltac respects_tac :=
  repeat first
    [ apply respects_bind | apply respects_try | apply respects_for_each
    | apply respects_ret | apply respects_lift | apply respects_assign_laps
    | apply respects_assign_drivers | apply respects_read_laps
    | apply respects_read_drivers | apply respects_on_ax
    | match goal with |- forall _, _ => intro end ].

Lemma respects_strategy_row row : respects (strategy_row row).
Proof. destruct row as [driver strategy]. unfold strategy_row, draw. respects_tac. Qed.

Lemma respects_blocks s :
  respects (positions_block s) /\ respects (tyre_block s) /\
  respects lap_times_block /\ respects standings_block.
Proof.
  unfold positions_block, scatter_fastest, tyre_block, lap_times_block,
    standings_block, placeholder, draw, ax_set_title.
  split; [|split; [|split]].
  - respects_tac.
  - respects_tac. apply respects_strategy_row.
  - respects_tac.
  - respects_tac.
Qed.

(** Clearing an axes makes two frames agree on it. *)
Lemma agree_clear S i a b :
  agree S a b ->
  agree (fun j => axid_eqb i j || S j) (fst (ax_clear i a)) (fst (ax_clear i b)).
Proof.
  intros (H1 & H2 & H3 & H4 & H5). unfold agree; simpl.
  repeat split; auto; try (destruct i; assumption).
  intros j Hj. destruct (axid_eqb i j) eqn:E.
  - assert (j = i) by (destruct i, j; simpl in E; congruence). subst j.
    rewrite !get_set_ax_same. reflexivity.
  - apply axid_eqb_false in E. rewrite !get_set_ax_other by assumption.
    apply H5. exact Hj.
Qed.

(** ** The two halves of the callback *)

(** The frame after lines 110-125. *)
Definition after_positions (s : Session) (fr : Frame) : Frame :=
  fst (positions_block s
         (fst (ax_set_title A1 "Live Driver Positions" (fst (ax_clear A1 fr))))).

(** Lines 129-130. *)
Definition clear_right (fr : Frame) : Frame :=
  fst (ax_clear A4 (fst (ax_clear A3 (fst (ax_clear A2 fr))))).

(** Lines 132-177. *)
Definition right_blocks (s : Session) : M unit :=
  bind (tyre_block s) (fun _ => bind lap_times_block (fun _ => standings_block)).

Lemma positions_block_ok s : always_ok (positions_block s).
Proof. apply always_ok_try. intro. apply always_ok_on_ax. Qed.

Lemma update_body_unfold s fr :
  update_body s fr = right_blocks s (clear_right (after_positions s fr)).
Proof.
  unfold after_positions.
  set (fr1 := fst (ax_set_title A1 "Live Driver Positions" (fst (ax_clear A1 fr)))).
  change (update_body s fr) with
    (bind (positions_block s)
       (fun _ => bind (for_each [A2; A3; A4] ax_clear) (fun _ => right_blocks s))
       fr1).
  unfold bind at 1.
  pose proof (positions_block_ok s fr1) as H.
  destruct (positions_block s fr1) as [fr2 r]. simpl in H. subst r.
  reflexivity.
Qed.

Lemma tyre_block_ok s : always_ok (tyre_block s).
Proof. apply always_ok_try. intro. apply always_ok_placeholder. Qed.

Lemma lap_times_block_ok : always_ok lap_times_block.
Proof. apply always_ok_try. intro. apply always_ok_placeholder. Qed.

Lemma standings_block_ok : always_ok standings_block.
Proof. apply always_ok_try. intro. apply always_ok_placeholder. Qed.

Lemma bind_always_ok (m : M unit) {B} (k : M B) fr :
  always_ok m -> bind m (fun _ => k) fr = k (fst (m fr)).
Proof.
  intros H. unfold bind. specialize (H fr).
  destruct (m fr) as [fr' r]. simpl in *. subst r. reflexivity.
Qed.

(** The frame at the end of the callback, block after block. *)
Lemma update_body_frames s fr :
  fst (update_body s fr) =
  fst (standings_block
         (fst (lap_times_block
                 (fst (tyre_block s (clear_right (after_positions s fr))))))).
Proof.
  rewrite update_body_unfold. unfold right_blocks.
  rewrite (bind_always_ok _ _ (tyre_block_ok s)).
  rewrite (bind_always_ok _ _ lap_times_block_ok).
  reflexivity.
Qed.

Lemma respects_right_blocks s : respects (right_blocks s).
Proof.
  destruct (respects_blocks s) as (_ & H2 & H3 & H4).
  unfold right_blocks. apply respects_bind; [assumption|intro].
  apply respects_bind; [assumption|intro]. assumption.
Qed.

(** The figure a tick leaves depends on the session and on the style of
    the figure, not on what the panels showed before. *)
Lemma update_body_forgets s (f1 f2 : Figure) :
  facecolor f1 = facecolor f2 -> suptitle f1 = suptitle f2 ->
  tight_layout (fg (fst (update_body s (start_frame f1)))) =
  tight_layout (fg (fst (update_body s (start_frame f2)))).
Proof.
  intros Hc Ht. rewrite !update_body_unfold.
  assert (H0 : agree (fun _ => false) (start_frame f1) (start_frame f2)).
  { unfold agree; simpl. repeat split; auto. discriminate. }
  apply (agree_clear A1) in H0.
  apply (respects_on_ax A1 (set_title "Live Driver Positions")) in H0.
  destruct H0 as [H0 _].
  destruct (respects_blocks s) as (Hp & _).
  apply Hp in H0. destruct H0 as [H0 _].
  fold (ax_set_title A1 "Live Driver Positions") in H0.
  fold (after_positions s (start_frame f1)) in H0.
  fold (after_positions s (start_frame f2)) in H0.
  apply (agree_clear A2) in H0. apply (agree_clear A3) in H0.
  apply (agree_clear A4) in H0.
  fold (clear_right (after_positions s (start_frame f1))) in H0.
  fold (clear_right (after_positions s (start_frame f2))) in H0.
  apply (respects_right_blocks s) in H0. destruct H0 as [(_ & _ & G1 & G2 & G3) _].
  apply figure_ext; auto.
  intros i. apply G3. destruct i; reflexivity.
Qed.

Lemma update_body_style s fr :
  facecolor (fg (fst (update_body s fr))) = facecolor (fg fr) /\
  suptitle (fg (fst (update_body s fr))) = suptitle (fg fr).
Proof. destruct (within_update_body s fr) as (H1 & H2 & _). auto. Qed.


(** ** A tick without session data *)

Lemma positions_block_raise s e fr :
  session_laps s = Raise e ->
  positions_block s fr = draw A1 (centered ("Error: " ++ exn_msg e)) fr.
Proof.
  intros H. unfold positions_block, try_except, bind, lift. rewrite H. reflexivity.
Qed.

Lemma tyre_block_raise s e fr :
  session_laps s = Raise e ->
  tyre_block s fr = placeholder A2 "Tyre Strategies" fr.
Proof.
  intros H. unfold tyre_block, try_except, bind, lift. rewrite H. reflexivity.
Qed.

Lemma lap_times_block_unbound fr :
  laps_var fr = None ->
  lap_times_block fr = placeholder A3 "Current Lap Times" fr.
Proof.
  intros H. unfold lap_times_block, try_except, bind, read_laps. rewrite H.
  reflexivity.
Qed.

Lemma standings_block_unbound fr :
  laps_var fr = None ->
  standings_block fr = placeholder A4 "Driver Positions" fr.
Proof.
  intros H. unfold standings_block, try_except, bind, read_laps. rewrite H.
  reflexivity.
Qed.

Lemma update_body_no_laps s e f :
  session_laps s = Raise e ->
  fg (fst (update_body s (start_frame f))) =
    {| ax1 := {| ax_title := "Live Driver Positions";
                 ax_artists := [centered ("Error: " ++ exn_msg e)] |};
       ax2 := na_panel "Tyre Strategies";
       ax3 := na_panel "Current Lap Times";
       ax4 := na_panel "Driver Positions";
       facecolor := facecolor f; suptitle := suptitle f; tight := tight f |}.
Proof.
  intros H. rewrite update_body_frames. unfold after_positions.
  rewrite (positions_block_raise _ _ H), (tyre_block_raise _ _ H).
  rewrite lap_times_block_unbound by reflexivity.
  rewrite standings_block_unbound by reflexivity.
  reflexivity.
Qed.

(** C3, amended. On a tick on which [session.laps] raises [e], the three
    right-hand panels show the static "N/A" text under their titles, the
    Positions panel shows the text "Error: " followed by the message of [e]
    under its title, and the callback returns: the timer is still there,
    advanced by one frame, and the session is untouched for the next tick. *)
Theorem snapshot_failure_tick (d : F1Dashboard) (a : Animation) (f : Figure) (e : exn) :
  fig d = Some f -> animation d = Some a ->
  session_laps (session d) = Raise e ->
  exists d' f',
    timer_fire d = Ok d' /\ fig d' = Some f' /\
    ax1 f' = {| ax_title := "Live Driver Positions";
                ax_artists := [centered ("Error: " ++ exn_msg e)] |} /\
    ax2 f' = na_panel "Tyre Strategies" /\
    ax3 f' = na_panel "Current Lap Times" /\
    ax4 f' = na_panel "Driver Positions" /\
    animation d' = Some {| interval := interval a; next_frame := S (next_frame a) |} /\
    session d' = session d.
Proof.
  intros Hf Ha He. unfold timer_fire. rewrite Ha.
  rewrite (update_dashboard_returns d (next_frame a) Hf).
  rewrite (update_body_no_laps _ f He).
  eexists. eexists. split; [reflexivity|]. simpl.
  split; [reflexivity|]. simpl. auto 10.
Qed.

(** ** Construction *)

(** C10. When [session.load()] raises in the constructor, the object comes
    back without figure, panels or timer; no timer fire ever runs a tick
    on it, and calling [update_dashboard] on it raises an AttributeError
    rather than drawing placeholders. *)
Theorem init_load_failure (yr : Z) (ev : string) (dm : bool) (s : Session) (e : exn) :
  get_session yr ev "Race" = Ok s ->
  session_load false s = Raise e ->
  exists d,
    init yr ev dm = Ok d /\
    fig d = None /\ animation d = None /\
    (forall n, timer_fires n d = Ok d) /\
    (forall frame, update_dashboard d frame = Raise (no_attribute "ax1")) /\
    exn_class (no_attribute "ax1") = "AttributeError".
Proof.
  intros Hs Hl. unfold init. rewrite Hs, Hl.
  eexists. split; [reflexivity|]. simpl.
  repeat split.
  induction n as [|n IH]; simpl; [reflexivity|exact IH].
Qed.

(** ** The session across ticks *)




(** ** The polling loop *)

Lemma fetch_live_never_returns (fuel : nat) : forall w w',
  fetch_live_positions fuel w <> Returned w'.
Proof.
  induction fuel as [|k IH]; simpl; intros w w'.
  - discriminate.
  - destruct (live_iteration w) as [w1|e w1|w1]; [apply IH | discriminate | discriminate].
Qed.

Lemma live_iteration_raised w e w' :
  live_iteration w = Raised e w' ->
  session_load true (session (self w)) = Raise e \/
  exists s, session_load true (session (self w)) = Ok s /\
            session_drivers s = Raise e.
Proof.
  unfold live_iteration.
  destruct (session_load true (session (self w))) as [s|e0].
  - destruct (session_drivers s) as [ds|e1] eqn:E; [discriminate|].
    intros H. injection H as <- _. right. exists s. auto.
  - intros H. injection H as <- _. left. reflexivity.
Qed.

Lemma live_iteration_not_running w w' : live_iteration w <> Running w'.
Proof.
  unfold live_iteration.
  destruct (session_load true (session (self w))) as [s|e0]; [|discriminate].
  destruct (session_drivers s); discriminate.
Qed.

(** C8, amended. The polling loop checks nothing at the top of an
    iteration and has no exit: for every number of iterations the call has
    either not come back or ended by an exception, never by returning; and
    an exception that ends it is one raised by [session.load(live=True)]
    or by [session.drivers] at the start of an iteration. *)
Theorem fetch_live_positions_no_exit (fuel : nat) (w : World) :
  (forall w', fetch_live_positions fuel w <> Returned w') /\
  (forall e w', fetch_live_positions fuel w = Raised e w' ->
     exists w0, session_load true (session (self w0)) = Raise e \/
       exists s, session_load true (session (self w0)) = Ok s /\
                 session_drivers s = Raise e) /\
  fetch_live_positions (S fuel) w =
    match live_iteration w with
    | Returned w' => fetch_live_positions fuel w'
    | other => other
    end.
Proof.
  split; [intros w'; apply fetch_live_never_returns|]. split.
  - revert w. induction fuel as [|k IH]; simpl; intros w e w' H; [discriminate|].
    destruct (live_iteration w) as [w1|e1 w1|w1] eqn:E.
    + apply (IH _ _ _ H).
    + injection H as <- _. exists w. apply (live_iteration_raised _ E).
    + discriminate.
  - simpl. destruct (live_iteration w); reflexivity.
Qed.

(** ** The methods and the timer *)

Lemma print_lines_animation (out : list string) : forall d,
  animation (fold_left (fun d l => print l d) out d) = animation d.
Proof.
  induction out as [|l r IH]; simpl; intros d; [reflexivity|].
  rewrite IH. reflexivity.
Qed.

Lemma call_keeps_animation fuel m frame w w' :
  call fuel m frame w = Returned w' ->
  animation (self w') = animation (self w).
Proof.
  destruct m; simpl.
  - destruct (plot_driver_positions (self w)) as [[a out]|e]; [|discriminate].
    intros H. injection H as <-. simpl. apply print_lines_animation.
  - intros H. exfalso. exact (fetch_live_never_returns _ _ H).
  - destruct (fig (self w)) as [f|] eqn:Hf.
    + rewrite (update_dashboard_returns (self w) frame Hf).
      intros H. injection H as <-. reflexivity.
    + unfold update_dashboard. rewrite Hf. discriminate.
  - intros H. injection H as <-. reflexivity.
Qed.

Lemma timer_fire_ticks d f a :
  fig d = Some f -> animation d = Some a ->
  exists d', timer_fire d = Ok d' /\ ticks d' = S (ticks d) /\ fig d' <> None.
Proof.
  intros Hf Ha. unfold timer_fire, ticks. rewrite Ha.
  rewrite (update_dashboard_returns d (next_frame a) Hf).
  eexists. split; [reflexivity|]. simpl. split; [reflexivity|discriminate].
Qed.

(** The contract of [stop()] in the spec: the call returns, and from then
    on no timer fire runs a tick. *)
Definition stop_is_deterministic (w : World) : Prop :=
  exists fuel w', invoke fuel "stop" O w = Returned w' /\
    forall n d, timer_fires n (self w') = Ok d -> ticks d = ticks (self w').

(** C7, amended. The class has no [stop]: the call raises an
    AttributeError and leaves the dashboard, its timer included, as it
    was. No method of the class that returns changes the timer, and on a
    dashboard that has its figure and its timer every timer fire runs one
    more tick. *)
Theorem no_method_stops_timer :
  lookup_method "stop" = None /\
  (forall fuel frame w,
     invoke fuel "stop" frame w = Raised (no_attribute "stop") w) /\
  (forall fuel m frame w w',
     call fuel m frame w = Returned w' ->
     animation (self w') = animation (self w)) /\
  (forall d f a,
     fig d = Some f -> animation d = Some a ->
     exists d', timer_fire d = Ok d' /\ ticks d' = S (ticks d)).
Proof.
  split; [reflexivity|]. split; [reflexivity|]. split.
  - apply call_keeps_animation.
  - intros d f a Hf Ha. destruct (timer_fire_ticks d Hf Ha) as (d' & H1 & H2 & _).
    exists d'. auto.
Qed.

(** ** The local [laps] *)

Definition keeps_laps {A} (m : M A) : Prop :=
  forall fr, laps_var (fst (m fr)) = laps_var fr.

Lemma keeps_laps_ret {A} (a : A) : keeps_laps (ret a).
Proof. intros fr. reflexivity. Qed.

Lemma keeps_laps_lift {A} (r : result A) : keeps_laps (lift r).
Proof. intros fr. reflexivity. Qed.

Lemma keeps_laps_on_ax i g : keeps_laps (on_ax i g).
Proof. intros fr. reflexivity. Qed.

Lemma keeps_laps_assign_drivers d : keeps_laps (assign_drivers d).
Proof. intros fr. reflexivity. Qed.

Lemma keeps_laps_read_laps : keeps_laps read_laps.
Proof. intros fr. reflexivity. Qed.

Lemma keeps_laps_read_drivers : keeps_laps read_drivers.
Proof. intros fr. reflexivity. Qed.

Lemma keeps_laps_bind {A B} (m : M A) (k : A -> M B) :
  keeps_laps m -> (forall a, keeps_laps (k a)) -> keeps_laps (bind m k).
Proof.
  intros Hm Hk fr. unfold bind. specialize (Hm fr).
  destruct (m fr) as [s' [a|e]]; simpl in *; [rewrite Hk|]; assumption.
Qed.

Lemma keeps_laps_try body handler :
  keeps_laps body -> (forall e, keeps_laps (handler e)) ->
  keeps_laps (try_except body handler).
Proof.
  intros Hm Hk fr. unfold try_except. specialize (Hm fr).
  destruct (body fr) as [s' [[]|e]]; simpl in *; [|rewrite Hk]; assumption.
Qed.

Lemma keeps_laps_for_each {A} (l : list A) body :
  (forall x, keeps_laps (body x)) -> keeps_laps (for_each l body).
Proof.
  intros H. induction l as [|x r IH]; simpl.
  - apply keeps_laps_ret.
  - apply keeps_laps_bind; auto.
Qed.

Ltac keeps_laps_tac :=
  repeat first
    [ apply keeps_laps_bind | apply keeps_laps_try | apply keeps_laps_for_each
    | apply keeps_laps_ret | apply keeps_laps_lift
    | apply keeps_laps_assign_drivers | apply keeps_laps_read_laps
    | apply keeps_laps_read_drivers | apply keeps_laps_on_ax
    | match goal with |- forall _, _ => intro end ].

Lemma keeps_laps_strategy_row row : keeps_laps (strategy_row row).
Proof. destruct row. unfold strategy_row, draw. keeps_laps_tac. Qed.

(** A block that starts with [laps = self.session.laps]. *)
Definition laps_first (s : Session) (rest : Laps -> M unit) (h : exn -> M unit)
  : M unit :=
  try_except
    (bind (lift (session_laps s))
       (fun laps => bind (assign_laps laps) (fun _ => rest laps))) h.

Lemma laps_first_bound s rest h l fr :
  (forall x, keeps_laps (rest x)) -> (forall e, keeps_laps (h e)) ->
  session_laps s = Ok l ->
  laps_var (fst (laps_first s rest h fr)) = Some l.
Proof.
  intros Hr Hh Hl. unfold laps_first, try_except, bind at 1, lift. rewrite Hl.
  unfold bind at 1, assign_laps. cbv beta iota.
  match goal with
  | |- context [rest l ?x] => pose proof (Hr l x) as H; destruct (rest l x) as [fr' [[]|e]]
  end; simpl in *; [|rewrite Hh]; exact H.
Qed.

Lemma laps_first_unbound s rest h e fr :
  (forall e, keeps_laps (h e)) ->
  session_laps s = Raise e ->
  laps_var (fst (laps_first s rest h fr)) = laps_var fr.
Proof.
  intros Hh Hl. unfold laps_first, try_except, bind at 1, lift. rewrite Hl.
  apply Hh.
Qed.

Lemma positions_block_laps_first s :
  exists rest h, positions_block s = laps_first s rest h /\
    (forall x, keeps_laps (rest x)) /\ (forall e, keeps_laps (h e)).
Proof.
  eexists. eexists. split; [reflexivity|].
  unfold scatter_fastest, draw. split; keeps_laps_tac.
Qed.

Lemma tyre_block_laps_first s :
  exists rest h, tyre_block s = laps_first s rest h /\
    (forall x, keeps_laps (rest x)) /\ (forall e, keeps_laps (h e)).
Proof.
  eexists. eexists. split; [reflexivity|].
  unfold draw, placeholder, ax_set_title. split; keeps_laps_tac.
  apply keeps_laps_strategy_row.
Qed.

Lemma keeps_laps_lap_times_block : keeps_laps lap_times_block.
Proof. unfold lap_times_block, placeholder, draw, ax_set_title. keeps_laps_tac. Qed.

(** After the first two blocks the local [laps], when bound, is
    [self.session.laps]. *)
Definition laps_inv (s : Session) (fr : Frame) : Prop :=
  forall l, laps_var fr = Some l -> session_laps s = Ok l.

Lemma laps_first_inv s rest h fr :
  (forall x, keeps_laps (rest x)) -> (forall e, keeps_laps (h e)) ->
  laps_inv s fr -> laps_inv s (fst (laps_first s rest h fr)).
Proof.
  intros Hr Hh Hi l. destruct (session_laps s) as [l0|e] eqn:E.
  - rewrite (@laps_first_bound s rest h l0 fr Hr Hh E). congruence.
  - rewrite (@laps_first_unbound s rest h e fr Hh E). intros H.
    rewrite <- E. apply Hi. exact H.
Qed.

(** The frame in which the Lap Times block starts. *)
Definition before_lap_times (s : Session) (f : Figure) : Frame :=
  fst (tyre_block s (clear_right (after_positions s (start_frame f)))).

(** The frame in which the pie block starts. *)
Definition before_standings (s : Session) (f : Figure) : Frame :=
  fst (lap_times_block (before_lap_times s f)).

Lemma update_body_final s f :
  fst (update_body s (start_frame f)) =
  fst (standings_block (before_standings s f)).
Proof. apply update_body_frames. Qed.

Lemma before_lap_times_laps_inv s f : laps_inv s (before_lap_times s f).
Proof.
  unfold before_lap_times, after_positions.
  destruct (tyre_block_laps_first s) as (r2 & h2 & -> & Hr2 & Hh2).
  apply laps_first_inv; try assumption.
  destruct (positions_block_laps_first s) as (r1 & h1 & -> & Hr1 & Hh1).
  intros l. simpl. revert l. apply laps_first_inv; try assumption.
  intros l. simpl. discriminate.
Qed.

Lemma before_lap_times_laps s f l :
  session_laps s = Ok l -> laps_var (before_lap_times s f) = Some l.
Proof.
  intros H. unfold before_lap_times.
  destruct (tyre_block_laps_first s) as (r2 & h2 & -> & Hr2 & Hh2).
  apply laps_first_bound; assumption.
Qed.

Lemma before_lap_times_ax3 s f : get_ax A3 (fg (before_lap_times s f)) = cleared.
Proof.
  unfold before_lap_times.
  destruct (within_tyre_block s (clear_right (after_positions s (start_frame f))))
    as (_ & _ & H).
  rewrite (H A3) by reflexivity. reflexivity.
Qed.

Lemma before_standings_laps_inv s f : laps_inv s (before_standings s f).
Proof.
  unfold before_standings, laps_inv. rewrite keeps_laps_lap_times_block.
  apply before_lap_times_laps_inv.
Qed.

Lemma before_standings_ax4 s f : get_ax A4 (fg (before_standings s f)) = cleared.
Proof.
  unfold before_standings, before_lap_times.
  destruct (within_lap_times_block
              (fst (tyre_block s (clear_right (after_positions s (start_frame f))))))
    as (_ & _ & H).
  rewrite (H A4) by reflexivity.
  destruct (within_tyre_block s (clear_right (after_positions s (start_frame f))))
    as (_ & _ & H').
  rewrite (H' A4) by reflexivity. reflexivity.
Qed.

(** The Positions panel is final once its block has run. *)
Lemma update_body_ax1 s f :
  get_ax A1 (fg (fst (update_body s (start_frame f)))) =
  get_ax A1 (fg (after_positions s (start_frame f))).
Proof.
  rewrite update_body_frames.
  destruct (within_standings_block
              (fst (lap_times_block
                      (fst (tyre_block s (clear_right (after_positions s (start_frame f))))))))
    as (_ & _ & H4). rewrite (H4 A1) by reflexivity.
  destruct (within_lap_times_block
              (fst (tyre_block s (clear_right (after_positions s (start_frame f))))))
    as (_ & _ & H3). rewrite (H3 A1) by reflexivity.
  destruct (within_tyre_block s (clear_right (after_positions s (start_frame f))))
    as (_ & _ & H2). rewrite (H2 A1) by reflexivity.
  reflexivity.
Qed.

(** ** The pie *)

(** The pie block on a cleared panel: it ends on the placeholder, or every
    step went through and the panel holds the one pie. *)
Lemma standings_block_cases fr :
  get_ax A4 (fg fr) = cleared ->
  shows_NA (get_ax A4 (fg (fst (standings_block fr)))) = true \/
  exists laps lap positions labels n,
    laps_var fr = Some laps /\ pick_fastest laps = Ok (Some lap) /\
    lap_getitem lap "Position" = Ok positions /\
    drivers_var fr = Some labels /\ py_len positions = Ok n /\
    get_ax A4 (fg (fst (standings_block fr))) =
      {| ax_title := "Driver Positions";
         ax_artists := [Pie positions labels n] |}.
Proof.
  intros Hc. simpl in Hc.
  unfold standings_block, try_except, bind, read_laps, read_drivers, lift,
    subscript, placeholder, draw, ax_set_title, on_ax.
  destruct (laps_var fr) as [laps|] eqn:E1;
    [|left; simpl; rewrite Hc; reflexivity].
  destruct (pick_fastest laps) as [[lap|]|e2] eqn:E2;
    [|left; simpl; rewrite Hc; reflexivity|left; simpl; rewrite Hc; reflexivity].
  destruct (lap_getitem lap "Position") as [positions|e3] eqn:E3;
    [|left; simpl; rewrite Hc; reflexivity].
  destruct (drivers_var fr) as [labels|] eqn:E4;
    [|left; simpl; rewrite Hc; reflexivity].
  destruct (py_len positions) as [n|e5] eqn:E5;
    [|left; simpl; rewrite Hc; reflexivity].
  destruct (pie_check positions labels) as [[]|e6] eqn:E6;
    [|left; simpl; rewrite Hc; reflexivity].
  right. exists laps, lap, positions, labels, n.
  repeat (split; [reflexivity || assumption|]).
  simpl. rewrite Hc. reflexivity.
Qed.

(** C2, amended. Whenever the pie is drawn, its wedge sizes are the
    [Position] value of the one lap that [pick_fastest()] selects from the
    session laps: a slice is as large as the rank it stands for, and the
    panel holds nothing but that pie. *)
Theorem standings_pie_sizes (d d' : F1Dashboard) (frame : nat) (f f' : Figure) :
  fig d = Some f ->
  update_dashboard d frame = Ok d' ->
  fig d' = Some f' ->
  shows_NA (ax4 f') = false ->
  exists laps lap positions labels n,
    session_laps (session d) = Ok laps /\
    pick_fastest laps = Ok (Some lap) /\
    lap_getitem lap "Position" = Ok positions /\
    py_len positions = Ok n /\
    ax4 f' = {| ax_title := "Driver Positions";
                ax_artists := [Pie positions labels n] |}.
Proof.
  intros Hf Hu Hf' Hna.
  rewrite (update_dashboard_returns d frame Hf) in Hu. injection Hu as <-.
  simpl in Hf'. injection Hf' as <-. simpl in *.
  rewrite update_body_final in *.
  destruct (standings_block_cases _ (before_standings_ax4 (session d) f))
    as [H|(laps & lap & positions & labels & n & H1 & H2 & H3 & H4 & H5 & H6)].
  - simpl in H. rewrite H in Hna. discriminate.
  - exists laps, lap, positions, labels, n.
    repeat split; try assumption.
    apply (before_standings_laps_inv (session d) f). exact H1.
Qed.

End Properties.

(** * The dashboard over the data model of the spec *)

Module Scenarios.
Import Ref.

(** ** Printing car numbers *)

Lemma to_int_not_nil (z : Z) :
  Z.to_int z <> Decimal.Pos Decimal.Nil /\ Z.to_int z <> Decimal.Neg Decimal.Nil.
Proof.
  split; intros H; pose proof (f_equal Z.of_int H) as H0;
    rewrite DecimalZ.of_to in H0; simpl in H0; subst z;
    vm_compute in H; discriminate H.
Qed.

Lemma string_of_Z_inj (a b : Z) : string_of_Z a = string_of_Z b -> a = b.
Proof.
  unfold string_of_Z. intros H. apply (f_equal NilZero.int_of_string) in H.
  destruct (to_int_not_nil a), (to_int_not_nil b).
  rewrite !NilZero.isi in H by assumption.
  injection H as H. apply DecimalZ.to_int_inj. exact H.
Qed.

Lemma string_of_Z_eqb (a b : Z) :
  String.eqb (string_of_Z a) (string_of_Z b) = (a =? b).
Proof.
  destruct (Z.eqb_spec a b) as [->|Hn].
  - apply String.eqb_refl.
  - apply String.eqb_neq. intros H. apply Hn. apply string_of_Z_inj. exact H.
Qed.

(** The laps of one participant, in table order. *)
Definition laps_of (p : Z) (l : list LapRecord) : list LapRecord :=
  filter (fun x => participant x =? p) l.

Lemma pick_driver_laps_of (l : list LapRecord) (p : Z) :
  r_pick_driver l (string_of_Z p) = laps_of p l.
Proof.
  unfold r_pick_driver, laps_of. apply filter_ext. intros x.
  apply string_of_Z_eqb.
Qed.

(** ** The fastest lap *)

Lemma fastest_some (l : list LapRecord) : forall x,
  fastest l = Some x ->
  In x l /\ exists t, lapTime x = Some t /\
    forall y u, In y l -> lapTime y = Some u -> t <= u.
Proof.
  induction l as [|a r IH]; simpl; intros x H; [discriminate|].
  destruct (lapTime a) as [t|] eqn:Ea.
  - destruct (fastest r) as [y|] eqn:Er.
    + destruct (IH y eq_refl) as (Hin & u & Hu & Hmin).
      rewrite Hu in H. destruct (Z.leb_spec t u) as [Hle|Hgt]; injection H as <-.
      * split; [auto|]. exists t. split; [assumption|].
        intros z v [<-|Hz] Hv; [rewrite Ea in Hv; injection Hv as <-; lia|].
        specialize (Hmin z v Hz Hv). lia.
      * split; [auto|]. exists u. split; [assumption|].
        intros z v [<-|Hz] Hv; [rewrite Ea in Hv; injection Hv as <-; lia|].
        apply (Hmin z v Hz Hv).
    + injection H as <-. split; [auto|]. exists t. split; [assumption|].
      intros z v [<-|Hz] Hv; [rewrite Ea in Hv; injection Hv as <-; lia|].
      exfalso. clear IH. induction r as [|b r IHr]; [contradiction|].
      simpl in Er. destruct Hz as [<-|Hz].
      * rewrite Hv in Er. destruct (fastest r) as [w|]; [|discriminate].
        destruct (lapTime w); [destruct (v <=? z)|]; discriminate.
      * destruct (lapTime b); [|auto].
        destruct (fastest r) as [w|]; [|discriminate].
        destruct (lapTime w); [destruct (z0 <=? z1)|]; discriminate.
  - destruct (IH x H) as (Hin & t & Ht & Hmin). split; [auto|].
    exists t. split; [assumption|].
    intros z v [<-|Hz] Hv; [congruence|]. apply (Hmin z v Hz Hv).
Qed.

Lemma fastest_none (l : list LapRecord) :
  fastest l = None <-> forall y, In y l -> lapTime y = None.
Proof.
  split.
  - induction l as [|a r IH]; simpl; intros H y Hy; [contradiction|].
    destruct (lapTime a) as [t|] eqn:Ea.
    + destruct (fastest r) as [w|]; [|discriminate].
      destruct (lapTime w); [destruct (t <=? z)|]; discriminate.
    + destruct Hy as [<-|Hy]; auto.
  - induction l as [|a r IH]; simpl; intros H; [reflexivity|].
    rewrite (H a (or_introl eq_refl)). apply IH. intros y Hy. apply H. auto.
Qed.

(** The smallest convertible lap time of a table, as the spec words it. *)
Fixpoint min_time (l : list LapRecord) : option Z :=
  match l with
  | [] => None
  | x :: r =>
      match lapTime x, min_time r with
      | Some t, Some u => Some (Z.min t u)
      | Some t, None => Some t
      | None, o => o
      end
  end.

(** The fastest lap time of participant [p], in milliseconds. *)
Definition best_time (p : Z) (s : Snapshot) : option Z :=
  min_time (laps_of p (laps s)).

Lemma min_time_lower (l : list LapRecord) : forall m,
  min_time l = Some m -> forall y u, In y l -> lapTime y = Some u -> m <= u.
Proof.
  induction l as [|a r IH]; simpl; intros m H y u Hy Hu; [contradiction|].
  destruct (lapTime a) as [t|] eqn:Ea.
  - destruct (min_time r) as [v|] eqn:Er.
    + injection H as <-. destruct Hy as [<-|Hy].
      * rewrite Ea in Hu. injection Hu as <-. lia.
      * specialize (IH v eq_refl y u Hy Hu). lia.
    + injection H as <-. destruct Hy as [<-|Hy].
      * rewrite Ea in Hu. injection Hu as <-. lia.
      * exfalso. clear IH. induction r as [|b r IHr]; [contradiction|].
        simpl in Er. destruct Hy as [<-|Hy].
        -- rewrite Hu in Er. destruct (min_time r); discriminate.
        -- destruct (lapTime b); [destruct (min_time r); discriminate|auto].
  - destruct Hy as [<-|Hy]; [congruence|]. apply (IH m H y u Hy Hu).
Qed.

Lemma min_time_attained (l : list LapRecord) : forall m,
  min_time l = Some m -> exists y, In y l /\ lapTime y = Some m.
Proof.
  induction l as [|a r IH]; simpl; intros m H; [discriminate|].
  destruct (lapTime a) as [t|] eqn:Ea.
  - destruct (min_time r) as [v|] eqn:Er.
    + injection H as <-. destruct (Z.min_spec t v) as [[_ ->]|[_ ->]].
      * exists a. auto.
      * destruct (IH v eq_refl) as (y & Hy & Hv). exists y. auto.
    + injection H as <-. exists a. auto.
  - destruct (IH m H) as (y & Hy & Hv). exists y. auto.
Qed.

Lemma min_time_some (l : list LapRecord) y u :
  In y l -> lapTime y = Some u -> exists m, min_time l = Some m.
Proof.
  induction l as [|a r IH]; simpl; intros Hy Hu; [contradiction|].
  destruct Hy as [<-|Hy].
  - rewrite Hu. destruct (min_time r); eauto.
  - destruct (IH Hy Hu) as (m & ->). destruct (lapTime a); eauto.
Qed.

(** The lap that [pick_fastest()] selects from the whole table carries the
    best time of its own participant. *)
Lemma fastest_is_best (s : Snapshot) (x : LapRecord) (t : Z) :
  fastest (laps s) = Some x -> lapTime x = Some t ->
  best_time (participant x) s = Some t.
Proof.
  intros Hf Ht. destruct (fastest_some _ Hf) as (Hin & t' & Ht' & Hmin).
  assert (t' = t) by congruence. subst t'.
  assert (Hx : In x (laps_of (participant x) (laps s))).
  { apply filter_In. split; [assumption|apply Z.eqb_refl]. }
  unfold best_time. destruct (min_time_some _ _ Hx Ht) as (m & Hm).
  rewrite Hm. f_equal.
  pose proof (min_time_lower _ Hm x Hx Ht) as H1.
  destruct (min_time_attained _ Hm) as (y & Hy & Hym).
  apply filter_In in Hy. destruct Hy as [Hy _].
  pose proof (Hmin y m Hy Hym). lia.
Qed.

(** ** Dashboards on a snapshot *)

(** A provider that answers every [load] with the same snapshot. *)
Definition constant (s : Snapshot) : nat -> FeedItem := fun _ => Data s.

(** The session after the [load] of the constructor. *)
Definition loaded (p : nat -> FeedItem) (o : option Snapshot) : RSession :=
  {| feed := p; loads := 1; current := o |}.

(** The dashboard that the constructor of line 185 builds around a loaded
    session. *)
Definition built (p : nat -> FeedItem) (fault : option View) (rs : RSession)
  : @F1Dashboard (lib p fault) :=
  let (f, tp) := @track_layout (lib p fault) rs
                   (@blank_figure (lib p fault) true "F1 Live Dashboard - 2024 Japan") in
  @Build_F1Dashboard (lib p fault) 2024 "Japan" rs (Some f) tp
    (Some {| interval := 5000; next_frame := 0 |}) [].


Lemma boot_no_data p fault :
  p O = NoData -> boot p fault = Ok (built p fault (loaded p None)).
Proof.
  intros H. unfold boot, init. simpl. unfold r_load. simpl. rewrite H.
  unfold built, loaded. destruct (track_layout _ _) as [f tp]. reflexivity.
Qed.

Lemma built_fig p fault rs : exists f, fig (built p fault rs) = Some f.
Proof.
  unfold built. destruct (track_layout _ _) as [f tp]. exists f. reflexivity.
Qed.

Lemma built_session p fault rs : session (built p fault rs) = rs.
Proof. unfold built. destruct (track_layout _ _) as [f tp]. reflexivity. Qed.

(** The figure after one run of the callback on a dashboard. *)
Definition refreshed {L : Library} (d : F1Dashboard) : option Figure :=
  match update_dashboard d O with
  | Ok d' => fig d'
  | Raise _ => None
  end.

Lemma refreshed_body {L : Library} (d : F1Dashboard) (f : Figure) :
  fig d = Some f ->
  refreshed d = Some (tight_layout (fg (fst (update_body (session d) (start_frame f))))).
Proof.
  intros Hf. unfold refreshed. rewrite (update_dashboard_returns d O Hf).
  reflexivity.
Qed.

(** ** The Lap Times view *)

Definition cell_label (c : Cell) : string :=
  match c with CStr s => s | CInt n => string_of_Z n | _ => "" end.

Definition cell_number (c : Cell) : Q :=
  match c with CNum q => q | CInt n => inject_Z n | _ => 0%Q end.

(** The view model a Lap Times panel shows: the bars as (label, seconds)
    pairs, or unavailable when it shows the placeholder. *)
Definition lap_times_view {L : Library} (labels_of : Value -> list string)
    (numbers_of : Value -> list Q) (a : Axes) : ViewModel (list (string * Q)) :=
  if shows_NA a then Unavailable
  else match ax_artists a with
       | Bar labels heights :: _ => Ready (combine (labels_of labels) (numbers_of heights))
       | _ => Unavailable
       end.

(** [deriveLapTimes(S)]: what the Lap Times panel shows after a tick on
    the dashboard whose session holds [S]. *)
Definition deriveLapTimes (s : Snapshot) : ViewModel (list (string * Q)) :=
  match refreshed (built (constant s) None (loaded (constant s) (Some s))) with
  | Some f => lap_times_view (L := lib (constant s) None)
                (map cell_label) (map cell_number) (ax3 f)
  | None => Unavailable
  end.

(** The Lap Times panel for a laps table, read off lines 152-158. *)
Definition lap_times_axes {L : Library} (bar_of : LapRecord -> Z -> list Artist)
    (l : list LapRecord) : Axes :=
  match fastest l with
  | Some x =>
      match lapTime x with
      | Some ms => {| ax_title := "Current Lap Times"; ax_artists := bar_of x ms |}
      | None => na_panel "Current Lap Times"
      end
  | None => na_panel "Current Lap Times"
  end.

Definition bars p (x : LapRecord) (ms : Z) : list (@Artist (lib p None)) :=
  let who : Column := [CStr (string_of_Z (participant x))] in
  [Bar (L := lib p None) who [CNum (ms # 1000)];
   XTickLabels (L := lib p None) who;
   YLabel (L := lib p None) "Lap Time (seconds)"].

Lemma lap_times_block_ref p (fr : @Frame (lib p None)) (l : list LapRecord) :
  laps_var fr = Some l -> get_ax A3 (fg fr) = cleared ->
  get_ax A3 (fg (fst (lap_times_block fr))) =
  lap_times_axes (L := lib p None) (bars p) l.
Proof.
  intros Hl Hc. simpl in Hc.
  unfold lap_times_block, try_except, bind, read_laps, lift, subscript,
    placeholder, draw, ax_set_title, on_ax, lap_times_axes, bars.
  rewrite Hl. simpl. destruct (fastest l) as [x|]; simpl.
  - destruct (lapTime x) as [ms|]; simpl; rewrite Hc; reflexivity.
  - rewrite Hc. reflexivity.
Qed.

Lemma refreshed_ax3 p (d : @F1Dashboard (lib p None)) (f : Figure) (s : Snapshot) :
  fig d = Some f -> current (session d) = Some s ->
  exists f', refreshed d = Some f' /\
    ax3 f' = lap_times_axes (L := lib p None) (bars p) (laps s).
Proof.
  intros Hf Hs. rewrite (refreshed_body d Hf). eexists. split; [reflexivity|].
  simpl ax3. rewrite update_body_final.
  destruct (@within_standings_block (lib p None) (before_standings (session d) f))
    as (_ & _ & H).
  change (ax3 ?g) with (get_ax A3 g).
  rewrite (H A3) by reflexivity. unfold before_standings.
  apply lap_times_block_ref.
  - apply (@before_lap_times_laps (lib p None)). simpl. unfold r_laps.
    rewrite Hs. reflexivity.
  - apply (@before_lap_times_ax3 (lib p None)).
Qed.

(** What [deriveLapTimes] comes to: the one bar of the fastest lap of the
    table, or unavailable when no lap has a lap time. *)
Lemma deriveLapTimes_eq (s : Snapshot) :
  deriveLapTimes s =
  match fastest (laps s) with
  | Some x =>
      match lapTime x with
      | Some ms => Ready [(string_of_Z (participant x), ms # 1000)]
      | None => Unavailable
      end
  | None => Unavailable
  end.
Proof.
  unfold deriveLapTimes.
  destruct (built_fig (constant s) None (loaded (constant s) (Some s))) as (f & Hf).
  destruct (@refreshed_ax3 (constant s) _ f s Hf) as (f' & -> & H3).
  { rewrite built_session. reflexivity. }
  rewrite H3. unfold lap_times_axes, lap_times_view.
  destruct (fastest (laps s)) as [x|]; [|reflexivity].
  destruct (lapTime x) as [ms|]; reflexivity.
Qed.

(** Every lap of the snapshot belongs to one of its participants. *)
Definition well_formed (s : Snapshot) : Prop :=
  forall x, In x (laps s) -> In (participant x) (participants s).

(** The claim of the spec for a snapshot: the participants of a Ready
    payload are participants of the snapshot, and the view is Unavailable
    exactly when no participant has a lap with a convertible lap time. *)
Definition lap_times_claim (s : Snapshot) : Prop :=
  (forall payload, deriveLapTimes s = Ready payload ->
     forall label seconds, In (label, seconds) payload ->
       exists p, label = string_of_Z p /\ In p (participants s)) /\
  (deriveLapTimes s = Unavailable <->
     forall p, In p (participants s) ->
       forall x, In x (laps s) -> participant x = p -> lapTime x = None).

(** C4, amended. The Lap Times derivation reads the laps table and nothing
    else. Every entry of a Ready payload is the driver of a lap of the
    table with the seconds of that driver's fastest lap, and the view is
    Unavailable exactly when no lap of the table has a convertible lap
    time. When every lap of the snapshot belongs to one of its
    participants, the drivers of the payload are participants and the view
    is Unavailable exactly when no participant has a convertible lap
    time. *)
Theorem deriveLapTimes_on_laps_table (s : Snapshot) :
  (forall payload, deriveLapTimes s = Ready payload ->
     forall label seconds, In (label, seconds) payload ->
       exists x ms, In x (laps s) /\ label = string_of_Z (participant x) /\
         best_time (participant x) s = Some ms /\ seconds = ms # 1000) /\
  (deriveLapTimes s = Unavailable <->
     forall x, In x (laps s) -> lapTime x = None) /\
  (well_formed s -> lap_times_claim s).
Proof.
  unfold lap_times_claim. rewrite deriveLapTimes_eq.
  destruct (fastest (laps s)) as [x|] eqn:Hx.
  - destruct (fastest_some _ Hx) as (Hin & t & Ht & Hmin). rewrite Ht.
    split; [|split].
    + intros payload H. injection H as <-. intros label seconds [H|[]].
      injection H as <- <-. exists x, t.
      repeat split; [assumption|]. apply (@fastest_is_best s x t Hx Ht).
    + split; [discriminate|]. intros H. rewrite (H x Hin) in Ht. discriminate.
    + intros Hwf. split.
      * intros payload H. injection H as <-. intros label seconds [H|[]].
        injection H as <- _. exists (participant x). split; [reflexivity|].
        apply Hwf. exact Hin.
      * split; [discriminate|]. intros H.
        rewrite (H (participant x) (Hwf x Hin) x Hin eq_refl) in Ht.
        discriminate.
  - pose proof (proj1 (fastest_none (laps s)) Hx) as Hn.
    split; [discriminate|]. split; [tauto|]. intros _.
    split; [discriminate|]. split; [|reflexivity].
    intros _ p _ x' Hx' _. apply (Hn x' Hx').
Qed.

(** The payload never holds more than the one fastest lap of the table. *)
Lemma deriveLapTimes_single (s : Snapshot) payload :
  deriveLapTimes s = Ready payload -> length payload = 1%nat.
Proof.
  rewrite deriveLapTimes_eq. destruct (fastest (laps s)) as [x|]; [|discriminate].
  destruct (lapTime x); [|discriminate]. intros H. injection H as <-. reflexivity.
Qed.

(** ** The Positions view *)

(** The scatter calls on an axes: the label and the two columns. *)
Definition scatters {L : Library} (a : Axes) : list (Driver * Value * Value) :=
  flat_map (fun x => match x with
                     | Scatter xs ys d => [(d, xs, ys)]
                     | _ => []
                     end) (ax_artists a).

(** A participant with position samples, as [scatter] receives it. *)
Definition encode (row : Z * list (Z * Z)) : Driver * Column * Column :=
  (string_of_Z (fst row), xs_of (snd row), ys_of (snd row)).

Definition last_lap (l : list LapRecord) : option LapRecord :=
  match rev l with x :: _ => Some x | [] => None end.

(** The Positions view in the words of the spec: for every participant the
    samples of the most recent lap; a participant without laps or with an
    empty sample sequence is left out. *)
Definition spec_positions (s : Snapshot) : list (Z * list (Z * Z)) :=
  flat_map (fun p => match last_lap (laps_of p (laps s)) with
                     | Some x => match positionSamples x with
                                 | [] => []
                                 | pts => [(p, pts)]
                                 end
                     | None => []
                     end) (participants s).

Lemma same_length_xy (pts : list (Z * Z)) :
  same_length (length (xs_of pts)) (length (ys_of pts)) = Ok tt.
Proof.
  unfold same_length, xs_of, ys_of. rewrite !length_map, Nat.eqb_refl.
  reflexivity.
Qed.

Definition scatter_of p fault (row : Z * list (Z * Z)) : @Artist (lib p fault) :=
  Scatter (L := lib p fault) (xs_of (snd row)) (ys_of (snd row)) (string_of_Z (fst row)).

Lemma scatters_of_rows p fault (rows : list (Z * list (Z * Z))) :
  flat_map (fun x : @Artist (lib p fault) =>
              match x with Scatter xs ys d => [(d, xs, ys)] | _ => [] end)
    (map (scatter_of p fault) rows) = map encode rows.
Proof.
  induction rows as [|r rows IH]; [reflexivity|].
  cbn [map flat_map]. rewrite IH. reflexivity.
Qed.

(** The rows the one-shot plot draws for a list of participants. *)
Definition latest_rows (l : list LapRecord) (ps : list Z) : list (Z * list (Z * Z)) :=
  flat_map (fun p => match last_lap (laps_of p l) with
                     | Some x => match positionSamples x with
                                 | [] => []
                                 | pts => [(p, pts)]
                                 end
                     | None => []
                     end) ps.

Lemma scatter_latest_ref p fault (l : list LapRecord) (ps : list Z) :
  forall a : @Axes (lib p fault),
    scatter_latest (L := lib p fault) l (map string_of_Z ps) a =
    Ok {| ax_title := ax_title a;
          ax_artists := ax_artists a ++ map (scatter_of p fault) (latest_rows l ps) |}.
Proof.
  induction ps as [|q ps IH]; intros a.
  - simpl. rewrite app_nil_r. destruct a; reflexivity.
  - cbn [map scatter_latest]. unfold rbind at 1.
    cbn [pick_driver lib]. rewrite pick_driver_laps_of.
    unfold latest_rows. cbn [flat_map]. fold (latest_rows l ps).
    unfold last_lap. cbn [laps_empty lib].
    destruct (laps_of q l) as [|x r] eqn:E.
    + simpl. apply IH.
    + cbn [iloc_last lib]. unfold r_iloc_last.
      destruct (rev (x :: r)) as [|y t] eqn:Er.
      { apply (f_equal (@length _)) in Er. rewrite length_rev in Er. discriminate. }
      cbn [rbind get_car_data add_distance tel_empty lib].
      destruct (positionSamples y) as [|pt pts] eqn:Ep.
      * simpl. apply IH.
      * cbn [tel_getitem lib].
        change (points_getitem (pt :: pts) "X") with (@Ok Column (xs_of (pt :: pts))).
        change (points_getitem (pt :: pts) "Y") with (@Ok Column (ys_of (pt :: pts))).
        cbn [rbind scatter_check lib]. rewrite same_length_xy. cbn [rbind].
        rewrite IH. cbn [add_artist ax_title ax_artists app map].
        rewrite <- app_assoc. reflexivity.
Qed.

Lemma track_outline_scatters {L : Library} (s : Session) :
  flat_map (fun x => match x with
                     | Scatter xs ys d => [(d, xs, ys)]
                     | _ => []
                     end) (ax_artists (fst (track_outline s))) = [].
Proof.
  unfold track_outline, rbind.
  destruct (get_circuit s) as [c|]; [|reflexivity].
  destruct (circuit_getitem c "X") as [xs|]; [|reflexivity].
  destruct (circuit_getitem c "Y") as [ys|]; [|reflexivity].
  destruct (plot_check xs ys); reflexivity.
Qed.

(** The one-shot plot draws the Positions view of the spec. *)
Lemma plot_driver_positions_latest p fault (d : @F1Dashboard (lib p fault)) s :
  current (session d) = Some s ->
  exists a out, plot_driver_positions d = Ok (a, out) /\
    scatters a = map encode (spec_positions s).
Proof.
  intros Hs. unfold plot_driver_positions. cbn [session_laps session_drivers lib].
  unfold r_laps, r_drivers. rewrite Hs. cbn [rbind].
  pose proof (track_outline_scatters (L := lib p fault) (session d)) as Ht.
  destruct (track_outline (session d)) as [a0 out]. cbn [fst] in Ht.
  rewrite scatter_latest_ref. cbn [rbind].
  eexists. eexists. split; [reflexivity|].
  unfold scatters, set_title, add_artist. cbn [ax_artists].
  rewrite !flat_map_app, Ht, scatters_of_rows. simpl. rewrite !app_nil_r.
  reflexivity.
Qed.

(** The rows the callback draws for a list of participants, and whether
    the loop came to its end. *)
Fixpoint fast_rows (l : list LapRecord) (ps : list Z)
  : list (Z * list (Z * Z)) * bool :=
  match ps with
  | [] => ([], true)
  | q :: r =>
      match fastest (laps_of q l) with
      | Some x => let (rows, ok) := fast_rows l r in
                  ((q, positionSamples x) :: rows, ok)
      | None => ([], false)
      end
  end.

Lemma fast_rows_spec (l : list LapRecord) (ps : list Z) : forall rows,
  fast_rows l ps = (rows, true) ->
  Forall2 (fun q row => exists x, fastest (laps_of q l) = Some x /\
                                  row = (q, positionSamples x)) ps rows.
Proof.
  induction ps as [|q ps IH]; simpl; intros rows H.
  - injection H as <-. constructor.
  - destruct (fastest (laps_of q l)) as [x|] eqn:E; [|discriminate].
    destruct (fast_rows l ps) as [rows' ok]. injection H as <- ->.
    constructor; [exists x; auto | apply IH; reflexivity].
Qed.

Definition no_pos_data : exn :=
  AttributeError "'NoneType' object has no attribute 'get_pos_data'".

Lemma scatter_fastest_ref p (l : list LapRecord) (q : Z) (fr : @Frame (lib p None)) :
  scatter_fastest (L := lib p None) l (string_of_Z q) fr =
  match fastest (laps_of q l) with
  | Some x => draw A1 (scatter_of p None (q, positionSamples x)) fr
  | None => (fr, Raise no_pos_data)
  end.
Proof.
  unfold scatter_fastest. unfold bind at 1, lift at 1.
  cbn [pick_driver lib]. rewrite pick_driver_laps_of.
  unfold bind at 1, lift at 1. cbn [pick_fastest lib].
  destruct (fastest (laps_of q l)) as [x|] eqn:E.
  - unfold bind at 1, lift at 1. cbn [call_on get_pos_data lib injected guard].
    unfold bind at 1, lift at 1. cbn [tel_getitem lib].
    change (points_getitem (positionSamples x) "X")
      with (@Ok Column (xs_of (positionSamples x))).
    unfold bind at 1, lift at 1. cbn [tel_getitem lib].
    change (points_getitem (positionSamples x) "Y")
      with (@Ok Column (ys_of (positionSamples x))).
    unfold bind at 1, lift at 1. cbn [scatter_check lib].
    rewrite same_length_xy. reflexivity.
  - reflexivity.
Qed.

Lemma positions_loop_ref p (l : list LapRecord) (ps : list Z) :
  forall fr : @Frame (lib p None),
    let r := for_each (map string_of_Z ps) (scatter_fastest (L := lib p None) l) fr in
    ax_artists (get_ax A1 (fg (fst r))) =
      (ax_artists (get_ax A1 (fg fr)) ++
       map (scatter_of p None) (fst (fast_rows l ps)))%list /\
    snd r = (if snd (fast_rows l ps) then Ok tt else Raise no_pos_data).
Proof.
  induction ps as [|q ps IH]; intros fr.
  - simpl. rewrite app_nil_r. auto.
  - cbn [map for_each fast_rows]. unfold bind. rewrite scatter_fastest_ref.
    destruct (fastest (laps_of q l)) as [x|] eqn:E.
    + cbn [draw on_ax].
      match goal with
      | |- context [for_each _ _ ?fr1] => destruct (IH fr1) as [H1 H2]
      end.
      cbv zeta in H1, H2. cbv zeta. rewrite H1, H2.
      destruct (fast_rows l ps) as [rows ok]. cbn [fst snd map].
      split; [|reflexivity].
      cbn [fg get_ax set_ax ax1 add_artist ax_artists].
      rewrite <- app_assoc. reflexivity.
    + cbv zeta. cbn [fst snd map]. rewrite app_nil_r. auto.
Qed.

(** The Positions panel after the callback, on a session that holds [s]. *)
Lemma positions_block_ref p (rs : RSession) (s : Snapshot) (fr : @Frame (lib p None)) :
  current rs = Some s ->
  ax_artists (get_ax A1 (fg (fst (positions_block (L := lib p None) rs fr)))) =
    (ax_artists (get_ax A1 (fg fr)) ++
     map (scatter_of p None) (fst (fast_rows (laps s) (participants s))) ++
     [if snd (fast_rows (laps s) (participants s))
      then Legend (L := lib p None)
      else centered (L := lib p None) ("Error: " ++ exn_msg no_pos_data)])%list.
Proof.
  intros Hs.
  set (fr1 := {| fg := fg fr; laps_var := Some (laps s);
                 drivers_var := Some (inl (map string_of_Z (participants s))) |}
              : @Frame (lib p None)).
  assert (Hb : positions_block (L := lib p None) rs fr =
               try_except
                 (bind (for_each (map string_of_Z (participants s))
                          (scatter_fastest (L := lib p None) (laps s)))
                    (fun _ => draw A1 Legend))
                 (fun e => draw A1 (centered ("Error: " ++ exn_msg e))) fr1).
  { unfold positions_block, try_except. unfold bind at 1, lift at 1.
    cbn [session_laps lib]. unfold r_laps. rewrite Hs.
    unfold bind at 1. cbn [assign_laps].
    unfold bind at 1, lift at 1. cbn [session_drivers lib]. unfold r_drivers.
    rewrite Hs. unfold bind at 1. cbn [assign_drivers]. reflexivity. }
  rewrite Hb. unfold try_except, bind.
  destruct (@positions_loop_ref p (laps s) (participants s) fr1) as [H1 H2].
  cbv zeta in H1, H2.
  match goal with
  | |- context [for_each ?a ?b fr1] => destruct (for_each a b fr1) as [fr2 r2]
  end.
  cbn [fst snd] in H1, H2. subst r2.
  change (get_ax A1 (fg fr1)) with (get_ax A1 (fg fr)) in H1.
  destruct (snd (fast_rows (laps s) (participants s)));
    cbn [draw on_ax fst fg]; rewrite get_set_ax_same;
    cbn [add_artist ax_artists]; rewrite H1, <- app_assoc; reflexivity.
Qed.

(** The Positions panel after the callback, on a session that holds [s]. *)
Lemma positions_panel_ref p (d : @F1Dashboard (lib p None)) (f : Figure) (s : Snapshot) :
  fig d = Some f -> current (session d) = Some s ->
  exists f', refreshed d = Some f' /\
    ax_artists (ax1 f') =
      (map (scatter_of p None) (fst (fast_rows (laps s) (participants s))) ++
       [if snd (fast_rows (laps s) (participants s))
        then Legend (L := lib p None)
        else centered (L := lib p None) ("Error: " ++ exn_msg no_pos_data)])%list.
Proof.
  intros Hf Hs. rewrite (refreshed_body d Hf). eexists. split; [reflexivity|].
  change (ax1 (tight_layout ?g)) with (get_ax A1 g).
  rewrite update_body_ax1. unfold after_positions.
  rewrite (@positions_block_ref p (session d) s _ Hs). reflexivity.
Qed.

(** The dashboard of a snapshot. *)
Definition dashboard (s : Snapshot) : @F1Dashboard (lib (constant s) None) :=
  built (constant s) None (loaded (constant s) (Some s)).

(** C6, amended. The one-shot plot takes, for every participant, the
    position samples of the most recent lap and leaves out a participant
    without laps or without samples. The Positions panel of the dashboard,
    when it is drawn, holds for every participant, in the order of the
    provider, the position samples of that participant's fastest lap. *)
Theorem positions_views (s : Snapshot) :
  (exists a out,
     plot_driver_positions (dashboard s) = Ok (a, out) /\
     scatters a = map encode (spec_positions s)) /\
  (forall f', refreshed (dashboard s) = Some f' ->
     shows_error (ax1 f') = false ->
     exists rows,
       scatters (ax1 f') = map encode rows /\
       Forall2 (fun q row => exists x,
                  fastest (laps_of q (laps s)) = Some x /\
                  row = (q, positionSamples x))
         (participants s) rows).
Proof.
  split.
  - apply plot_driver_positions_latest. unfold dashboard.
    rewrite built_session. reflexivity.
  - intros f' Hr He.
    destruct (built_fig (constant s) None (loaded (constant s) (Some s))) as (f & Hf).
    destruct (@positions_panel_ref (constant s) (dashboard s) f s Hf) as (f2 & Hr2 & Ha).
    { unfold dashboard. rewrite built_session. reflexivity. }
    rewrite Hr2 in Hr. injection Hr as <-.
    destruct (fast_rows (laps s) (participants s)) as [rows ok] eqn:E.
    cbn [fst snd] in Ha. destruct ok.
    + exists rows. split; [|apply fast_rows_spec; exact E].
      unfold scatters. rewrite Ha, flat_map_app, scatters_of_rows. simpl.
      apply app_nil_r.
    + unfold shows_error in He. rewrite Ha, existsb_app in He. simpl in He.
      rewrite orb_true_r in He. discriminate.
Qed.

(** ** Concrete runs *)

(** The dashboard after [n] timer fires, and its figure. *)
Definition ticked {L : Library} (n : nat) (d : F1Dashboard) : F1Dashboard :=
  match timer_fires n d with Ok d' => d' | Raise _ => d end.

(** The dashboard after one direct call of the callback. *)
Definition updated {L : Library} (d : F1Dashboard) : F1Dashboard :=
  match update_dashboard d O with Ok d' => d' | Raise _ => d end.

Definition figure_of {L : Library} (d : F1Dashboard) : Figure :=
  match fig d with Some f => f | None => blank_figure true "" end.

(** Which of the four panels show their view: Positions, Tyre Strategies,
    Lap Times, Driver Positions. *)
Definition ready_panels {L : Library} (f : Figure) : list bool :=
  [negb (shows_error (ax1 f)); negb (shows_NA (ax2 f));
   negb (shows_NA (ax3 f)); negb (shows_NA (ax4 f))].

(** The panels of Scenario A after one tick, with the derivation of one
    view made to fail. *)
Definition panels_with (fault : option View) : list bool :=
  ready_panels (figure_of (ticked 1 (built (constant scenarioA) fault
                                       (loaded (constant scenarioA) (Some scenarioA))))).

(** C1, at the failing input. On Scenario A all four panels are drawn. With
    the Lap Times derivation alone made to fail (its [total_seconds] call
    raises) the Lap Times panel falls back, and so does the pie: the local
    [drivers] still holds the two drivers of [session.drivers], which the
    pie rejects as labels for its one wedge. A fault in one of the other
    three views leaves the remaining panels drawn. *)
Theorem lap_times_fault_reaches_standings :
  panels_with None = [true; true; true; true] /\
  panels_with (Some LapTimes) = [true; true; false; false] /\
  panels_with (Some Positions) = [false; true; true; true] /\
  panels_with (Some TireStrategy) = [true; false; true; true] /\
  panels_with (Some Standings) = [true; true; true; false].
Proof. repeat split; vm_compute; reflexivity. Qed.

(** The Standings view a pie panel shows: its slices as (label, weight). *)
Definition standings_view (a : @Axes (lib (constant scenarioA) None))
  : ViewModel (list (string * Q)) :=
  if shows_NA a then Unavailable
  else match ax_artists a with
       | Pie sizes (inr labels) _ :: _ =>
           Ready (combine (map cell_label labels) (map cell_number sizes))
       | Pie sizes (inl labels) _ :: _ =>
           Ready (combine labels (map cell_number sizes))
       | _ => Unavailable
       end.

(** The claim of the spec for a snapshot: when the Standings view is
    Ready, every participant has a slice of weight 1. *)
Definition equal_weight_slices (view : ViewModel (list (string * Q)))
    (s : Snapshot) : Prop :=
  forall slices, view = Ready slices ->
    forall q, In q (participants s) -> In (string_of_Z q, 1%Q) slices.

(** C2, counterexample. On Scenario A the pie has one slice, for car 44,
    of weight 2, the rank of its fastest lap; car 1 has no slice. *)
Lemma standings_not_equal_weight :
  standings_view (ax4 (figure_of (ticked 1 (dashboard scenarioA)))) =
    Ready [("44", 2%Q)] /\
  ~ equal_weight_slices
      (standings_view (ax4 (figure_of (ticked 1 (dashboard scenarioA)))))
      scenarioA.
Proof.
  assert (H : standings_view (ax4 (figure_of (ticked 1 (dashboard scenarioA)))) =
              Ready [("44", 2%Q)]) by (vm_compute; reflexivity).
  split; [exact H|]. intros C.
  specialize (C _ H 1 (or_introl eq_refl)).
  destruct C as [C|[]]. discriminate C.
Qed.

Lemma standings_pie_sizes_witness :
  exists laps lap positions labels n,
    session_laps (session (dashboard scenarioA)) = Ok laps /\
    pick_fastest laps = Ok (Some lap) /\
    lap_getitem lap "Position" = Ok positions /\
    py_len positions = Ok n /\
    ax4 (figure_of (updated (dashboard scenarioA))) =
      {| ax_title := "Driver Positions";
         ax_artists := [Pie positions labels n] |}.
Proof.
  apply (@standings_pie_sizes (lib (constant scenarioA) None)
           (dashboard scenarioA) (updated (dashboard scenarioA)) 0%nat
           (figure_of (dashboard scenarioA))
           (figure_of (updated (dashboard scenarioA))));
    vm_compute; reflexivity.
Defined.

(** A dashboard whose session was loaded without timing data. *)
Definition dashboard_no_data : @F1Dashboard (lib (fun _ => NoData) None) :=
  built (fun _ => NoData) None (loaded (fun _ => NoData) None).

(** C3, counterexample. With [session.laps] raising, the Positions panel
    after the tick is not the "N/A" placeholder: it shows the message of
    the exception. *)
Lemma positions_panel_shows_error_text :
  ax1 (figure_of (ticked 1 dashboard_no_data)) =
    {| ax_title := "Live Driver Positions";
       ax_artists := [centered (L := lib (fun _ => NoData) None)
         "Error: The data you are trying to access has not been loaded yet."] |} /\
  ~ all_placeholders (figure_of (ticked 1 dashboard_no_data)).
Proof.
  split; [vm_compute; reflexivity|]. intros H. destruct (H A1) as [t Ht].
  vm_compute in Ht. inversion Ht.
Qed.

Lemma snapshot_failure_tick_witness :
  exists d' f',
    timer_fire dashboard_no_data = Ok d' /\ fig d' = Some f' /\
    ax1 f' = {| ax_title := "Live Driver Positions";
                ax_artists := [centered ("Error: " ++ exn_msg
                  (Exn "DataNotLoadedError"
                     "The data you are trying to access has not been loaded yet."))] |} /\
    ax2 f' = na_panel "Tyre Strategies" /\
    ax3 f' = na_panel "Current Lap Times" /\
    ax4 f' = na_panel "Driver Positions" /\
    animation d' = Some {| interval := 5000; next_frame := 1 |} /\
    session d' = session dashboard_no_data.
Proof.
  apply (@snapshot_failure_tick (lib (fun _ => NoData) None) dashboard_no_data
           {| interval := 5000; next_frame := 0 |}
           (figure_of dashboard_no_data)); reflexivity.
Defined.

(** A snapshot whose laps table holds a lap of car 99, which is not among
    its participants; the lap of participant 1 has no lap time. *)
Definition stray_lap : Snapshot := {|
  participants := [1];
  laps := [ {| participant := 1; lapTime := None;
               tireCompoundSequence := ["Soft"];
               position := 2; positionSamples := [(1, 1)] |};
            {| participant := 99; lapTime := Some 91800;
               tireCompoundSequence := ["Hard"];
               position := 1; positionSamples := [(2, 2)] |} ];
  trackGeometry := None
|}.

(** C4, counterexample. On that snapshot the view is Ready with the one
    bar of car 99: the payload is not within the participants, and the
    view is not Unavailable although no participant has a convertible lap
    time. *)
Lemma lap_times_outside_participants :
  deriveLapTimes stray_lap = Ready [("99", 91800 # 1000)] /\
  ~ (forall payload, deriveLapTimes stray_lap = Ready payload ->
       forall label seconds, In (label, seconds) payload ->
         exists p, label = string_of_Z p /\ In p (participants stray_lap)) /\
  ~ (deriveLapTimes stray_lap = Unavailable <->
       forall p, In p (participants stray_lap) ->
         forall x, In x (laps stray_lap) -> participant x = p -> lapTime x = None) /\
  ~ lap_times_claim stray_lap.
Proof.
  assert (R : deriveLapTimes stray_lap = Ready [("99", 91800 # 1000)])
    by (vm_compute; reflexivity).
  assert (N1 : ~ (forall payload, deriveLapTimes stray_lap = Ready payload ->
       forall label seconds, In (label, seconds) payload ->
         exists p, label = string_of_Z p /\ In p (participants stray_lap))).
  { intros C. destruct (C _ R "99" (91800 # 1000) (or_introl eq_refl))
      as (p & Hp & [<-|[]]). vm_compute in Hp. discriminate Hp. }
  split; [exact R|]. split; [exact N1|]. split.
  - intros [_ C]. rewrite R in C.
    assert (U : @Ready (list (string * Q)) [("99", 91800 # 1000)] = Unavailable).
    { apply C. intros p [<-|[]] x [<-|[<-|[]]] Hx; [reflexivity|discriminate Hx]. }
    discriminate U.
  - intros [C _]. exact (N1 C).
Qed.

(** In Scenario A every lap belongs to a participant. *)
Example scenarioA_well_formed : well_formed scenarioA.
Proof. intros x [<-|[<-|[]]]; simpl; auto. Qed.

(** Scenario A of the spec: the Lap Times view holds the one bar of car
    44. *)
Example deriveLapTimes_scenarioA :
  deriveLapTimes scenarioA = Ready [("44", 91800 # 1000)].
Proof. vm_compute. reflexivity. Qed.

(** A provider that is unreachable. *)
Definition down : nat -> FeedItem := fun _ => Down.

Lemma init_load_failure_witness :
  exists d : @F1Dashboard (lib down None),
    init 2024 "Japan" true = Ok d /\
    fig d = None /\ animation d = None /\
    (forall n, timer_fires n d = Ok d) /\
    (forall frame, update_dashboard d frame = Raise (no_attribute "ax1")) /\
    exn_class (no_attribute "ax1") = "AttributeError".
Proof.
  apply (@init_load_failure (lib down None) 2024 "Japan" true
           {| feed := down; loads := 0; current := None |}
           (Exn "ConnectionError" "session unreachable")); reflexivity.
Defined.






(** The world of the example usage on Scenario A. *)
Definition worldA : @World (lib (constant scenarioA) None) :=
  {| self := dashboard scenarioA; pyplot := cleared |}.

(** C7, counterexample. On the dashboard of Scenario A a [stop()] call
    raises, and the next timer fire runs a tick. *)
Lemma stop_does_not_exist :
  invoke 0 "stop" 0 worldA = Raised (no_attribute "stop") worldA /\
  ticks (self worldA) = 0%nat /\ ticks (ticked 1 (self worldA)) = 1%nat /\
  ~ stop_is_deterministic worldA.
Proof.
  split; [reflexivity|]. split; [reflexivity|]. split; [vm_compute; reflexivity|].
  intros (fuel & w' & H & _). discriminate H.
Qed.

(** The claim of the spec for the polling loop: it can come to an end
    between two iterations. *)
Definition can_terminate {L : Library} (w : World) : Prop :=
  exists fuel w', fetch_live_positions fuel w = Returned w'.

(** C8, counterexample. On Scenario A the polling loop is still running
    after three iterations, having reloaded three times, and no number of
    iterations brings it to return. *)
Lemma live_loop_never_returns :
  (exists w', fetch_live_positions 3 worldA = Running w' /\
              loads (session (self w')) = 4%nat) /\
  ~ can_terminate worldA.
Proof.
  split.
  - eexists. split; vm_compute; reflexivity.
  - intros (fuel & w' & H). exact (fetch_live_never_returns _ _ H).
Qed.

(** A participant with two laps, the first one the faster. *)
Definition two_laps : Snapshot := {|
  participants := [7];
  laps := [ {| participant := 7; lapTime := Some 90000;
               tireCompoundSequence := ["Soft"];
               position := 1; positionSamples := [(1, 1)] |};
            {| participant := 7; lapTime := Some 95000;
               tireCompoundSequence := ["Soft"];
               position := 1; positionSamples := [(2, 2)] |} ];
  trackGeometry := None
|}.

(** The claim of the spec for a snapshot: the Positions panel is drawn and
    holds the most recent samples of every participant that has some. *)
Definition shows_latest_positions (s : Snapshot) : Prop :=
  exists f', refreshed (dashboard s) = Some f' /\
    shows_error (ax1 f') = false /\
    scatters (ax1 f') = map encode (spec_positions s).

(** C6, counterexample. For a participant whose first lap is the fastest
    the panel holds the samples of the first lap, not of the latest. *)
Lemma positions_panel_not_latest :
  scatters (ax1 (figure_of (ticked 1 (dashboard two_laps)))) =
    [("7", [CInt 1], [CInt 1])] /\
  map encode (spec_positions two_laps) = [("7", [CInt 2], [CInt 2])] /\
  ~ shows_latest_positions two_laps.
Proof.
  split; [vm_compute; reflexivity|]. split; [vm_compute; reflexivity|].
  intros (f' & H & _ & Hs). vm_compute in H. injection H as <-.
  vm_compute in Hs. discriminate Hs.
Qed.

(** A participant without laps. *)
Definition missing_laps : Snapshot := {|
  participants := [7; 8];
  laps := laps two_laps;
  trackGeometry := None
|}.

(** With one participant without laps the whole Positions panel falls back
    to its error text, after the scatter of the participants before. *)
Example positions_panel_with_missing_laps :
  ax_artists (ax1 (figure_of (ticked 1 (dashboard missing_laps)))) =
    [Scatter (L := lib (constant missing_laps) None) [CInt 1] [CInt 1] "7";
     centered (L := lib (constant missing_laps) None)
       "Error: 'NoneType' object has no attribute 'get_pos_data'"].
Proof. vm_compute. reflexivity. Qed.

End Scenarios.

(** * Further properties of the class *)

Section Engine.
Context {L : Library}.

(** ** The callback as a whole *)

(** The callback never raises on an object that has its figure: whatever
    the session and the plotting calls do, it returns, and it leaves the
    session, the timer, the console, the track plot and the style of the
    figure as they were. *)
Theorem callback_never_raises (d : F1Dashboard) (frame : nat) (f : Figure) :
  fig d = Some f ->
  exists d' f',
    update_dashboard d frame = Ok d' /\ fig d' = Some f' /\
    session d' = session d /\ animation d' = animation d /\
    console d' = console d /\ track_plot d' = track_plot d /\
    year d' = year d /\ event_name d' = event_name d /\
    facecolor f' = facecolor f /\ suptitle f' = suptitle f /\ tight f' = true.
Proof.
  intros Hf. rewrite (update_dashboard_returns d frame Hf).
  eexists. eexists. split; [reflexivity|]. split; [reflexivity|].
  destruct (within_update_body (session d) (start_frame f)) as (Hc & Ht & _).
  simpl. auto 12.
Qed.

(** ** The timer on a constructed dashboard *)

Lemma init_shape (yr : Z) (ev : string) (dm : bool) (d : F1Dashboard) :
  init yr ev dm = Ok d ->
  (fig d = None /\ animation d = None) \/
  (exists f, fig d = Some f /\
             animation d = Some {| interval := 5000; next_frame := 0 |}).
Proof.
  unfold init. destruct (get_session yr ev "Race") as [s|e]; [|discriminate].
  destruct (session_load false s) as [s'|e].
  - destruct (track_layout s' _) as [f tp]. intros H. injection H as <-.
    right. exists f. auto.
  - intros H. injection H as <-. left. auto.
Qed.

Lemma timer_fire_next d f a :
  fig d = Some f -> animation d = Some a ->
  exists d' f',
    timer_fire d = Ok d' /\ fig d' = Some f' /\
    f' = tight_layout (fg (fst (update_body (session d) (start_frame f)))) /\
    animation d' = Some {| interval := interval a; next_frame := S (next_frame a) |} /\
    session d' = session d.
Proof.
  intros Hf Ha. unfold timer_fire. rewrite Ha.
  rewrite (update_dashboard_returns d (next_frame a) Hf).
  eexists. eexists. split; [reflexivity|]. simpl. auto.
Qed.

Lemma timer_fires_count (n : nat) : forall d f a,
  fig d = Some f -> animation d = Some a ->
  exists d' f',
    timer_fires n d = Ok d' /\ fig d' = Some f' /\
    animation d' = Some {| interval := interval a; next_frame := (next_frame a + n)%nat |} /\
    session d' = session d.
Proof.
  induction n as [|n IH]; intros d f a Hf Ha.
  - exists d, f. simpl. rewrite Nat.add_0_r. destruct a. auto.
  - destruct (timer_fire_next d Hf Ha) as (d1 & f1 & H1 & Hf1 & _ & Ha1 & Hs1).
    destruct (IH d1 f1 _ Hf1 Ha1) as (d' & f' & H' & Hf' & Ha' & Hs').
    exists d', f'. simpl. rewrite H1. split; [assumption|]. split; [assumption|].
    split; [|congruence]. rewrite Ha'. simpl. rewrite Nat.add_succ_r. reflexivity.
Qed.

Lemma timer_fires_no_timer (n : nat) (d : F1Dashboard) :
  animation d = None -> timer_fires n d = Ok d.
Proof.
  intros Ha. induction n as [|n IH]; simpl; [reflexivity|].
  unfold timer_fire. rewrite Ha. exact IH.
Qed.

(** A dashboard that came out of the constructor never makes the timer
    raise: every number of fires goes through, on the session the
    constructor left. With the figure built, [n] fires are [n] ticks;
    without it, nothing happens at all. *)
Theorem constructed_dashboard_keeps_ticking (yr : Z) (ev : string) (dm : bool)
    (d0 : F1Dashboard) (n : nat) :
  init yr ev dm = Ok d0 ->
  exists d,
    timer_fires n d0 = Ok d /\ session d = session d0 /\
    ((fig d0 = None /\ d = d0) \/ (fig d0 <> None /\ fig d <> None /\ ticks d = n)).
Proof.
  intros Hi. destruct (init_shape _ _ _ Hi) as [[Hf Ha]|(f & Hf & Ha)].
  - exists d0. rewrite (timer_fires_no_timer n d0 Ha). auto.
  - destruct (timer_fires_count n d0 Hf Ha) as (d & f' & H & Hf' & Ha' & Hs).
    exists d. split; [assumption|]. split; [assumption|]. right.
    unfold ticks. rewrite Hf, Hf', Ha'. simpl.
    repeat split; discriminate || reflexivity.
Qed.

Lemma figure_settles (n : nat) : forall d f a,
  fig d = Some f -> animation d = Some a ->
  exists d1 dn,
    timer_fires 1 d = Ok d1 /\ timer_fires (S n) d = Ok dn /\
    fig dn = fig d1.
Proof.
  induction n as [|n IH]; intros d f a Hf Ha.
  - destruct (timer_fire_next d Hf Ha) as (d1 & f1 & H1 & Hf1 & _).
    exists d1, d1. simpl. rewrite H1. auto.
  - destruct (timer_fire_next d Hf Ha) as (d1 & f1 & H1 & Hf1 & Hf1' & Ha1 & Hs1).
    destruct (IH d1 f1 _ Hf1 Ha1) as (d2 & dn & H2 & Hn & Hfn).
    exists d1, dn. split; [simpl; rewrite H1; reflexivity|].
    split; [change (timer_fires (S (S n)) d) with
              (match timer_fire d with Ok d' => timer_fires (S n) d' | Raise e => Raise e end);
            rewrite H1; exact Hn|].
    rewrite Hfn. simpl in H2.
    destruct (timer_fire_next d1 Hf1 Ha1) as (d2' & f2 & H2' & Hf2 & Hf2' & _).
    rewrite H2' in H2. injection H2 as <-. rewrite Hf2, Hf1. f_equal.
    rewrite Hf2', Hs1, Hf1'.
    destruct (update_body_style (session d) (start_frame f)) as [Hc Ht].
    apply update_body_forgets; simpl; assumption.
Qed.

(** The picture is settled by the first tick: every later tick draws the
    very same figure again, since no tick changes the session. *)
Theorem picture_settled_after_first_tick (d : F1Dashboard) (f : Figure)
    (a : Animation) (n : nat) :
  fig d = Some f -> animation d = Some a ->
  exists d1 dn,
    timer_fires 1 d = Ok d1 /\ timer_fires (S n) d = Ok dn /\
    fig dn = fig d1.
Proof. apply figure_settles. Qed.

(** ** What a statement leaves alone *)

Definition preserves {X : Type} (P : Frame -> X) {A} (m : M A) : Prop :=
  forall fr, P (fst (m fr)) = P fr.

Lemma preserves_ret {X} (P : Frame -> X) {A} (a : A) : preserves P (ret a).
Proof. intros fr. reflexivity. Qed.

Lemma preserves_lift {X} (P : Frame -> X) {A} (r : result A) : preserves P (lift r).
Proof. intros fr. reflexivity. Qed.

Lemma preserves_read_laps {X} (P : Frame -> X) : preserves P read_laps.
Proof. intros fr. reflexivity. Qed.

Lemma preserves_read_drivers {X} (P : Frame -> X) : preserves P read_drivers.
Proof. intros fr. reflexivity. Qed.

Lemma preserves_bind {X} (P : Frame -> X) {A B} (m : M A) (k : A -> M B) :
  preserves P m -> (forall a, preserves P (k a)) -> preserves P (bind m k).
Proof.
  intros Hm Hk fr. unfold bind. specialize (Hm fr).
  destruct (m fr) as [s' [a|e]]; simpl in *; [rewrite Hk|]; assumption.
Qed.

Lemma preserves_try {X} (P : Frame -> X) body handler :
  preserves P body -> (forall e, preserves P (handler e)) ->
  preserves P (try_except body handler).
Proof.
  intros Hm Hk fr. unfold try_except. specialize (Hm fr).
  destruct (body fr) as [s' [[]|e]]; simpl in *; [|rewrite Hk]; assumption.
Qed.

Lemma preserves_for_each {X} (P : Frame -> X) {A} (l : list A) body :
  (forall x, preserves P (body x)) -> preserves P (for_each l body).
Proof.
  intros H. induction l as [|x r IH]; simpl.
  - apply preserves_ret.
  - apply preserves_bind; auto.
Qed.

Lemma drivers_on_ax i g : preserves drivers_var (on_ax i g).
Proof. intros fr. reflexivity. Qed.

Lemma drivers_assign_laps l : preserves drivers_var (assign_laps l).
Proof. intros fr. reflexivity. Qed.

Ltac keeps_drivers :=
  repeat first
    [ apply preserves_bind | apply preserves_try | apply preserves_for_each
    | apply preserves_ret | apply preserves_lift | apply preserves_read_laps
    | apply preserves_read_drivers | apply drivers_on_ax
    | apply drivers_assign_laps
    | match goal with |- forall _, _ => intro end ].

Lemma drivers_strategy_row row : preserves drivers_var (strategy_row row).
Proof. destruct row. unfold strategy_row, draw. keeps_drivers. Qed.

Lemma drivers_tyre_block s : preserves drivers_var (tyre_block s).
Proof.
  unfold tyre_block, placeholder, draw, ax_set_title. keeps_drivers.
  apply drivers_strategy_row.
Qed.

Lemma drivers_scatter_fastest laps d : preserves drivers_var (scatter_fastest laps d).
Proof. unfold scatter_fastest, draw. keeps_drivers. Qed.

(** ** Axes that only grow *)

(** [extend a l]: the axes [a] with the artists [l] drawn after its own. *)
Definition extend (a : Axes) (l : list Artist) : Axes :=
  {| ax_title := ax_title a; ax_artists := ax_artists a ++ l |}.

Lemma extend_nil a : extend a [] = a.
Proof. destruct a. unfold extend. simpl. rewrite app_nil_r. reflexivity. Qed.

Lemma extend_add x a l : add_artist x (extend a l) = extend a (l ++ [x]).
Proof. unfold add_artist, extend. simpl. rewrite app_assoc. reflexivity. Qed.

Lemma extend_cons x a l : extend (add_artist x a) l = extend a (x :: l).
Proof. unfold add_artist, extend. simpl. rewrite <- app_assoc. reflexivity. Qed.

Lemma draw_ax i x fr :
  get_ax i (fg (fst (draw i x fr))) = add_artist x (get_ax i (fg fr)).
Proof. unfold draw, on_ax. simpl. apply get_set_ax_same. Qed.

(** ** The panels at the end of the callback *)

Lemma update_body_ax2 s f :
  get_ax A2 (fg (fst (update_body s (start_frame f)))) =
  get_ax A2 (fg (before_lap_times s f)).
Proof.
  rewrite update_body_final. unfold before_standings.
  destruct (within_standings_block (fst (lap_times_block (before_lap_times s f))))
    as (_ & _ & H4). rewrite (H4 A2) by reflexivity.
  destruct (within_lap_times_block (before_lap_times s f)) as (_ & _ & H3).
  rewrite (H3 A2) by reflexivity. reflexivity.
Qed.

Lemma update_body_ax3 s f :
  get_ax A3 (fg (fst (update_body s (start_frame f)))) =
  get_ax A3 (fg (before_standings s f)).
Proof.
  rewrite update_body_final.
  destruct (within_standings_block (before_standings s f)) as (_ & _ & H4).
  rewrite (H4 A3) by reflexivity. reflexivity.
Qed.

Lemma refreshed_figure (d : F1Dashboard) (frame : nat) (f : Figure) :
  fig d = Some f ->
  exists d' f',
    update_dashboard d frame = Ok d' /\ fig d' = Some f' /\
    (forall i, get_ax i f' = get_ax i (fg (fst (update_body (session d) (start_frame f))))).
Proof.
  intros Hf. rewrite (update_dashboard_returns d frame Hf).
  eexists. eexists. split; [reflexivity|]. split; [reflexivity|].
  intros i. destruct i; reflexivity.
Qed.

(** ** The Positions panel *)

(** What lines 118-121 come to for one driver: the scatter, or the
    exception of the first call that raised. *)
Definition driver_scatter (laps : Laps) (driver : Driver) : result Artist :=
  rbind (pick_driver laps driver) (fun driver_laps =>
  rbind (pick_fastest driver_laps) (fun driver_lap =>
  rbind (call_on "get_pos_data" get_pos_data driver_lap) (fun pos_data =>
  rbind (tel_getitem pos_data "X") (fun xs =>
  rbind (tel_getitem pos_data "Y") (fun ys =>
  rbind (scatter_check xs ys) (fun _ => Ok (Scatter xs ys driver))))))).

(** The scatters of the drivers before the first one that raises, and the
    exception of that one. *)
Fixpoint scatter_run (laps : Laps) (drivers : list Driver)
  : list Artist * option exn :=
  match drivers with
  | [] => ([], None)
  | d :: r =>
      match driver_scatter laps d with
      | Ok a => let (arts, e) := scatter_run laps r in (a :: arts, e)
      | Raise e => ([], Some e)
      end
  end.

Definition error_text (e : exn) : Artist := centered ("Error: " ++ exn_msg e).

(** What the Positions panel holds after the callback. *)
Definition positions_artists (s : Session) : list Artist :=
  match session_laps s with
  | Raise e => [error_text e]
  | Ok laps =>
      match session_drivers s with
      | Raise e => [error_text e]
      | Ok drivers =>
          let (arts, e) := scatter_run laps drivers in
          arts ++ [match e with None => Legend | Some e => error_text e end]
      end
  end.

Lemma scatter_fastest_step laps d fr :
  scatter_fastest laps d fr =
  match driver_scatter laps d with
  | Ok a => draw A1 a fr
  | Raise e => (fr, Raise e)
  end.
Proof.
  unfold scatter_fastest, driver_scatter, bind, lift, rbind.
  destruct (pick_driver laps d) as [dl|]; [|reflexivity].
  destruct (pick_fastest dl) as [o|]; [|reflexivity].
  destruct (call_on "get_pos_data" get_pos_data o) as [pos|]; [|reflexivity].
  destruct (tel_getitem pos "X") as [xs|]; [|reflexivity].
  destruct (tel_getitem pos "Y") as [ys|]; [|reflexivity].
  destruct (scatter_check xs ys) as [[]|]; reflexivity.
Qed.

Lemma positions_loop laps (ds : list Driver) : forall fr,
  get_ax A1 (fg (fst (for_each ds (scatter_fastest laps) fr))) =
    extend (get_ax A1 (fg fr)) (fst (scatter_run laps ds)) /\
  snd (for_each ds (scatter_fastest laps) fr) =
    match snd (scatter_run laps ds) with None => Ok tt | Some e => Raise e end.
Proof.
  induction ds as [|d ds IH]; intros fr.
  - simpl. rewrite extend_nil. auto.
  - cbn [for_each scatter_run]. unfold bind. rewrite scatter_fastest_step.
    destruct (driver_scatter laps d) as [a|e].
    + destruct (IH (fst (draw A1 a fr))) as [H1 H2].
      change (draw A1 a fr) with (fst (draw A1 a fr), @Ok unit tt).
      cbv iota beta. rewrite H1, H2, draw_ax, extend_cons.
      destruct (scatter_run laps ds) as [arts e']. auto.
    + simpl. rewrite extend_nil. auto.
Qed.

Lemma positions_block_ax1 s fr :
  get_ax A1 (fg (fst (positions_block s fr))) =
  extend (get_ax A1 (fg fr)) (positions_artists s).
Proof.
  unfold positions_block, positions_artists, try_except.
  unfold bind at 1, lift at 1.
  destruct (session_laps s) as [laps|e]; [|apply draw_ax].
  unfold bind at 1. cbn [assign_laps]. unfold bind at 1, lift at 1.
  destruct (session_drivers s) as [ds|e]; [|apply draw_ax].
  unfold bind at 1. cbn [assign_drivers]. unfold bind at 1.
  match goal with
  | |- context [for_each ds (scatter_fastest laps) ?fr1] =>
      destruct (positions_loop laps ds fr1) as [H1 H2];
      destruct (for_each ds (scatter_fastest laps) fr1) as [fr2 r2]
  end.
  cbn [fst snd fg] in H1, H2. subst r2.
  destruct (scatter_run laps ds) as [arts [e|]]; cbn [fst snd] in *;
    cbv beta iota.
  - rewrite draw_ax, H1, extend_add. reflexivity.
  - change (draw A1 Legend fr2) with (fst (draw A1 Legend fr2), @Ok unit tt).
    cbv beta iota. cbn [fst]. rewrite draw_ax, H1, extend_add. reflexivity.
Qed.

Lemma driver_scatter_shape laps d a :
  driver_scatter laps d = Ok a -> exists xs ys, a = Scatter xs ys d.
Proof.
  unfold driver_scatter, rbind.
  destruct (pick_driver laps d) as [dl|]; [|discriminate].
  destruct (pick_fastest dl) as [o|]; [|discriminate].
  destruct (call_on "get_pos_data" get_pos_data o) as [pos|]; [|discriminate].
  destruct (tel_getitem pos "X") as [xs|]; [|discriminate].
  destruct (tel_getitem pos "Y") as [ys|]; [|discriminate].
  destruct (scatter_check xs ys) as [[]|]; [|discriminate].
  intros H. injection H as <-. eauto.
Qed.

Lemma scatter_run_no_track laps ds v :
  ~ In (Track v) (fst (scatter_run laps ds)).
Proof.
  induction ds as [|d ds IH]; simpl; [tauto|].
  destruct (driver_scatter laps d) as [a|e] eqn:E; [|simpl; tauto].
  destruct (scatter_run laps ds) as [arts e']. simpl in *.
  intros [H|H]; [|tauto].
  destruct (driver_scatter_shape _ _ E) as (xs & ys & ->). discriminate.
Qed.

Lemma positions_artists_no_track s v : ~ In (Track v) (positions_artists s).
Proof.
  unfold positions_artists, error_text, centered.
  destruct (session_laps s) as [laps|e]; [|simpl; intros [H|[]]; discriminate].
  destruct (session_drivers s) as [ds|e]; [|simpl; intros [H|[]]; discriminate].
  pose proof (scatter_run_no_track laps ds v) as Hn.
  destruct (scatter_run laps ds) as [arts e]. simpl in Hn.
  intros H. apply in_app_or in H. destruct H as [H|[H|[]]]; [tauto|].
  destruct e; discriminate.
Qed.

(** After every tick the Positions panel, under the title "Live Driver
    Positions", holds the scatter of every driver before the first one for
    which a call raises, followed by the legend when none raised and by
    the text "Error: " with the message of the first exception otherwise;
    the scatters drawn before the failure stay. Nothing of the track layout
    that the constructor drew is left. *)
Theorem positions_panel_contents (d : F1Dashboard) (frame : nat) (f : Figure) :
  fig d = Some f ->
  exists d' f',
    update_dashboard d frame = Ok d' /\ fig d' = Some f' /\
    ax1 f' = {| ax_title := "Live Driver Positions";
                ax_artists := positions_artists (session d) |} /\
    forall v, ~ In (Track v) (ax_artists (ax1 f')).
Proof.
  intros Hf. destruct (refreshed_figure d frame Hf) as (d' & f' & Hu & Hf' & Hax).
  exists d', f'. split; [assumption|]. split; [assumption|].
  assert (H1 : ax1 f' = {| ax_title := "Live Driver Positions";
                           ax_artists := positions_artists (session d) |}).
  { change (ax1 f') with (get_ax A1 f'). rewrite Hax, update_body_ax1.
    unfold after_positions. rewrite positions_block_ax1. reflexivity. }
  split; [exact H1|]. rewrite H1. simpl. apply positions_artists_no_track.
Qed.

(** ** The Tyre Strategies panel *)

(** The text of one row, for a numeric key. *)
Definition strategy_text (n : Z) (strategy : list string) : Artist :=
  Text (1 # 10) ((9 # 10) - (1 # 10) * inject_Z n)
       (string_of_Z n ++ ": " ++ String.concat " → " strategy).

(** The rows before the first key that is not a number, and whether every
    key was a number. *)
Fixpoint tyre_rows (rows : list (Key * list string)) : list Artist * bool :=
  match rows with
  | [] => ([], true)
  | (KInt n, strategy) :: r =>
      let (arts, ok) := tyre_rows r in (strategy_text n strategy :: arts, ok)
  | (KStr _, _) :: _ => ([], false)
  end.

Definition is_ok_unit (r : result unit) : bool :=
  match r with Ok _ => true | Raise _ => false end.

Lemma tyre_loop (rows : list (Key * list string)) : forall fr,
  get_ax A2 (fg (fst (for_each rows strategy_row fr))) =
    extend (get_ax A2 (fg fr)) (fst (tyre_rows rows)) /\
  is_ok_unit (snd (for_each rows strategy_row fr)) = snd (tyre_rows rows).
Proof.
  induction rows as [|[[n|k] st] rows IH]; intros fr.
  - simpl. rewrite extend_nil. auto.
  - cbn [for_each tyre_rows]. unfold bind.
    change (strategy_row (KInt n, st) fr)
      with (fst (draw A2 (strategy_text n st) fr), @Ok unit tt).
    cbv iota beta.
    destruct (IH (fst (draw A2 (strategy_text n st) fr))) as [H1 H2].
    rewrite H1, H2, draw_ax, extend_cons.
    destruct (tyre_rows rows) as [arts ok]. auto.
  - simpl. rewrite extend_nil. auto.
Qed.

Lemma strategies_ax2 (rows : list (Key * list string)) fr :
  get_ax A2 (fg (fst (try_except
                        (bind (for_each rows strategy_row)
                           (fun _ => ax_set_title A2 "Tyre Strategies"))
                        (fun _ => placeholder A2 "Tyre Strategies") fr))) =
  set_title "Tyre Strategies"
    (extend (get_ax A2 (fg fr))
       (fst (tyre_rows rows) ++
        (if snd (tyre_rows rows) then [] else [centered "N/A"]))).
Proof.
  unfold try_except, bind. destruct (tyre_loop rows fr) as [H1 H2].
  destruct (for_each rows strategy_row fr) as [fr2 r2]. cbn [fst snd] in H1, H2.
  destruct (tyre_rows rows) as [arts ok]. cbn [fst snd] in *.
  destruct r2 as [[]|e]; simpl in H2; subst ok.
  - cbn [ax_set_title on_ax fst fg]. rewrite get_set_ax_same, H1, app_nil_r.
    reflexivity.
  - unfold placeholder, bind, draw, ax_set_title, on_ax. cbn [fst fg].
    rewrite !get_set_ax_same, H1, extend_add. reflexivity.
Qed.

Lemma tyre_block_ax2 s fr laps rows :
  session_laps s = Ok laps -> tire_strategies laps = Ok rows ->
  get_ax A2 (fg (fst (tyre_block s fr))) =
  set_title "Tyre Strategies"
    (extend (get_ax A2 (fg fr))
       (fst (tyre_rows rows) ++
        (if snd (tyre_rows rows) then [] else [centered "N/A"]))).
Proof.
  intros Hl Hr.
  set (fr1 := {| fg := fg fr; laps_var := Some laps; drivers_var := drivers_var fr |}).
  assert (Hb : tyre_block s fr =
               try_except
                 (bind (for_each rows strategy_row)
                    (fun _ => ax_set_title A2 "Tyre Strategies"))
                 (fun _ => placeholder A2 "Tyre Strategies") fr1).
  { unfold tyre_block, try_except. unfold bind at 1, lift at 1. rewrite Hl.
    unfold bind at 1. cbn [assign_laps]. unfold bind at 1, lift at 1.
    rewrite Hr. reflexivity. }
  rewrite Hb, strategies_ax2. reflexivity.
Qed.

(** When the strategies dictionary is there, the Tyre Strategies panel
    holds one text row per entry up to the first key that is not a number.
    Such a key ends the panel on the "N/A" text, drawn after the rows that
    came before it, which stay; an empty dictionary gives a titled panel
    with nothing in it. *)
Theorem tyre_panel_contents (d : F1Dashboard) (frame : nat) (f : Figure)
    (laps : Laps) (rows : list (Key * list string)) :
  fig d = Some f ->
  session_laps (session d) = Ok laps ->
  tire_strategies laps = Ok rows ->
  exists d' f',
    update_dashboard d frame = Ok d' /\ fig d' = Some f' /\
    ax2 f' = {| ax_title := "Tyre Strategies";
                ax_artists := fst (tyre_rows rows) ++
                  (if snd (tyre_rows rows) then [] else [centered "N/A"]) |}.
Proof.
  intros Hf Hl Hr.
  destruct (refreshed_figure d frame Hf) as (d' & f' & Hu & Hf' & Hax).
  exists d', f'. split; [assumption|]. split; [assumption|].
  change (ax2 f') with (get_ax A2 f'). rewrite Hax, update_body_ax2.
  unfold before_lap_times. rewrite (@tyre_block_ax2 _ _ laps rows Hl Hr).
  reflexivity.
Qed.

(** ** Titles *)

Definition titled (i : AxId) (t : string) (m : M unit) : Prop :=
  forall fr, snd (m fr) = Ok tt -> ax_title (get_ax i (fg (fst (m fr)))) = t.

Lemma titled_set i t : titled i t (ax_set_title i t).
Proof. intros fr _. unfold ax_set_title, on_ax. simpl. rewrite get_set_ax_same. reflexivity. Qed.

Lemma titled_bind i t {A} (m : M A) (k : A -> M unit) :
  (forall a, titled i t (k a)) -> titled i t (bind m k).
Proof.
  intros Hk fr. unfold bind. destruct (m fr) as [s' [a|e]]; simpl.
  - apply Hk.
  - discriminate.
Qed.

Lemma try_titled i t body fr :
  titled i t body ->
  ax_title (get_ax i (fg (fst (try_except body (fun _ => placeholder i t) fr)))) = t.
Proof.
  intros H. unfold try_except. specialize (H fr).
  destruct (body fr) as [s' [[]|e]]; simpl in *.
  - apply H. reflexivity.
  - rewrite get_set_ax_same. reflexivity.
Qed.

Ltac titled_tac :=
  repeat first [ apply titled_set | apply titled_bind; intro ].

Lemma tyre_block_title s fr :
  ax_title (get_ax A2 (fg (fst (tyre_block s fr)))) = "Tyre Strategies".
Proof. unfold tyre_block. apply try_titled. titled_tac. Qed.

Lemma lap_times_block_title fr :
  ax_title (get_ax A3 (fg (fst (lap_times_block fr)))) = "Current Lap Times".
Proof. unfold lap_times_block. apply try_titled. titled_tac. Qed.

Lemma standings_block_title fr :
  ax_title (get_ax A4 (fg (fst (standings_block fr)))) = "Driver Positions".
Proof. unfold standings_block. apply try_titled. titled_tac. Qed.

(** After every tick, whatever failed, the four panels carry their
    titles: "Live Driver Positions", "Tyre Strategies", "Current Lap Times"
    and "Driver Positions". *)
Theorem titles_after_tick (d : F1Dashboard) (frame : nat) (f : Figure) :
  fig d = Some f ->
  exists d' f',
    update_dashboard d frame = Ok d' /\ fig d' = Some f' /\
    ax_title (ax1 f') = "Live Driver Positions" /\
    ax_title (ax2 f') = "Tyre Strategies" /\
    ax_title (ax3 f') = "Current Lap Times" /\
    ax_title (ax4 f') = "Driver Positions".
Proof.
  intros Hf.
  destruct (refreshed_figure d frame Hf) as (d' & f' & Hu & Hf' & Hax).
  exists d', f'. split; [assumption|]. split; [assumption|].
  change (ax1 f') with (get_ax A1 f'). change (ax2 f') with (get_ax A2 f').
  change (ax3 f') with (get_ax A3 f'). change (ax4 f') with (get_ax A4 f').
  rewrite !Hax. repeat split.
  - rewrite update_body_ax1. unfold after_positions.
    rewrite positions_block_ax1. reflexivity.
  - rewrite update_body_ax2. apply tyre_block_title.
  - rewrite update_body_ax3. apply lap_times_block_title.
  - rewrite update_body_final. apply standings_block_title.
Qed.

(** ** The Lap Times panel *)

Lemma lap_times_block_drawn fr laps lap t times drivers :
  laps_var fr = Some laps ->
  pick_fastest laps = Ok (Some lap) ->
  lap_getitem lap "LapTime" = Ok t ->
  dt_total_seconds t = Ok times ->
  lap_getitem lap "Driver" = Ok drivers ->
  bar_check drivers times = Ok tt ->
  get_ax A3 (fg (fst (lap_times_block fr))) =
  set_title "Current Lap Times"
    (extend (get_ax A3 (fg fr))
       (Bar drivers times ::
        match xticklabels_check drivers with
        | Ok _ => [XTickLabels drivers; YLabel "Lap Time (seconds)"]
        | Raise _ => [centered "N/A"]
        end)).
Proof.
  intros H1 H2 H3 H4 H5 H6.
  unfold lap_times_block, try_except, bind, read_laps, lift, subscript.
  rewrite H1, H2, H3, H4, H5. cbn [assign_drivers]. rewrite H6.
  cbn [draw on_ax].
  destruct (xticklabels_check drivers) as [[]|e];
    unfold placeholder, bind, draw, ax_set_title, on_ax;
    cbn [fst snd fg laps_var drivers_var];
    rewrite ?get_set_ax_same;
    unfold set_title, add_artist, extend; cbn [ax_title ax_artists];
    rewrite <- ?app_assoc; reflexivity.
Qed.

(** When the Lap Times derivation and [bar] go through, the panel holds
    the bars of the lap that [pick_fastest()] selects from the session
    laps. If [set_xticklabels] then raises, the bars stay and the "N/A"
    text is drawn over them; otherwise the tick labels and the axis label
    follow. *)
Theorem lap_times_panel_contents (d : F1Dashboard) (frame : nat) (f : Figure)
    (laps : Laps) (lap : Lap) (t times drivers : Value) :
  fig d = Some f ->
  session_laps (session d) = Ok laps ->
  pick_fastest laps = Ok (Some lap) ->
  lap_getitem lap "LapTime" = Ok t ->
  dt_total_seconds t = Ok times ->
  lap_getitem lap "Driver" = Ok drivers ->
  bar_check drivers times = Ok tt ->
  exists d' f',
    update_dashboard d frame = Ok d' /\ fig d' = Some f' /\
    ax3 f' = {| ax_title := "Current Lap Times";
                ax_artists :=
                  Bar drivers times ::
                  match xticklabels_check drivers with
                  | Ok _ => [XTickLabels drivers; YLabel "Lap Time (seconds)"]
                  | Raise _ => [centered "N/A"]
                  end |}.
Proof.
  intros Hf Hl H2 H3 H4 H5 H6.
  destruct (refreshed_figure d frame Hf) as (d' & f' & Hu & Hf' & Hax).
  exists d', f'. split; [assumption|]. split; [assumption|].
  change (ax3 f') with (get_ax A3 f'). rewrite Hax, update_body_ax3.
  unfold before_standings.
  rewrite (@lap_times_block_drawn _ laps lap t times drivers
             (before_lap_times_laps (session d) f Hl) H2 H3 H4 H5 H6).
  rewrite before_lap_times_ax3. reflexivity.
Qed.

(** ** The labels of the pie *)

Lemma positions_block_bound s fr laps ds :
  session_laps s = Ok laps -> session_drivers s = Ok ds ->
  positions_block s fr =
  try_except
    (bind (for_each ds (scatter_fastest laps)) (fun _ => draw A1 Legend))
    (fun e => draw A1 (centered ("Error: " ++ exn_msg e)))
    {| fg := fg fr; laps_var := Some laps; drivers_var := Some (inl ds) |}.
Proof.
  intros Hl Hd. unfold positions_block, try_except.
  unfold bind at 1, lift at 1. rewrite Hl. unfold bind at 1. cbn [assign_laps].
  unfold bind at 1, lift at 1. rewrite Hd. unfold bind at 1.
  cbn [assign_drivers]. reflexivity.
Qed.

Lemma positions_block_no_drivers s fr laps e :
  session_laps s = Ok laps -> session_drivers s = Raise e ->
  drivers_var (fst (positions_block s fr)) = drivers_var fr.
Proof.
  intros Hl Hd. unfold positions_block, try_except.
  unfold bind at 1, lift at 1. rewrite Hl. unfold bind at 1. cbn [assign_laps].
  unfold bind at 1, lift at 1. rewrite Hd. reflexivity.
Qed.

(** The local [drivers] after the Positions block of a call. *)
Definition drivers_after_positions (s : Session) : option DriversVar :=
  match session_laps s, session_drivers s with
  | Ok _, Ok ds => Some (inl ds)
  | _, _ => None
  end.

Lemma before_lap_times_drivers s f :
  drivers_var (before_lap_times s f) = drivers_after_positions s.
Proof.
  unfold before_lap_times. rewrite drivers_tyre_block.
  unfold clear_right, after_positions, drivers_after_positions.
  cbn [ax_clear on_ax fst drivers_var].
  destruct (session_laps s) as [laps|e] eqn:Hl.
  - destruct (session_drivers s) as [ds|e] eqn:Hd.
    + rewrite (@positions_block_bound s _ laps ds Hl Hd).
      assert (P : preserves drivers_var
                    (try_except
                       (bind (for_each ds (scatter_fastest laps))
                          (fun _ => draw A1 Legend))
                       (fun e => draw A1 (centered ("Error: " ++ exn_msg e))))).
      { unfold draw, scatter_fastest. keeps_drivers. }
      rewrite P. reflexivity.
    + rewrite (@positions_block_no_drivers s _ laps e Hl Hd). reflexivity.
  - rewrite (@positions_block_raise _ s e _ Hl). reflexivity.
Qed.

Lemma shows_NA_add a : shows_NA (add_artist (centered "N/A") a) = true.
Proof.
  unfold shows_NA, add_artist. cbn [ax_artists]. rewrite existsb_app.
  simpl. apply orb_true_r.
Qed.

(** The Lap Times block either leaves the local [drivers] alone and ends
    on its placeholder, or rebinds it to the [Driver] value of the lap that
    [pick_fastest()] returned. *)
Lemma lap_times_block_drivers fr :
  (drivers_var (fst (lap_times_block fr)) = drivers_var fr /\
   shows_NA (get_ax A3 (fg (fst (lap_times_block fr)))) = true) \/
  (exists laps lap v,
     laps_var fr = Some laps /\ pick_fastest laps = Ok (Some lap) /\
     lap_getitem lap "Driver" = Ok v /\
     drivers_var (fst (lap_times_block fr)) = Some (inr v)).
Proof.
  unfold lap_times_block, try_except, bind, read_laps, lift, subscript.
  assert (N : forall fr0 : Frame,
            shows_NA (get_ax A3 (fg (fst (placeholder A3 "Current Lap Times" fr0)))) = true).
  { intros fr0. unfold placeholder, bind, draw, ax_set_title, on_ax.
    cbn [fst fg]. rewrite !get_set_ax_same. apply (shows_NA_add (get_ax A3 (fg fr0))). }
  destruct (laps_var fr) as [laps|] eqn:E1; [|left; split; [reflexivity|apply N]].
  destruct (pick_fastest laps) as [[lap|]|e2] eqn:E2;
    [|left; split; [reflexivity|apply N]|left; split; [reflexivity|apply N]].
  destruct (lap_getitem lap "LapTime") as [t|e3];
    [|left; split; [reflexivity|apply N]].
  destruct (dt_total_seconds t) as [times|e4];
    [|left; split; [reflexivity|apply N]].
  destruct (lap_getitem lap "Driver") as [v|e5] eqn:E5;
    [|left; split; [reflexivity|apply N]].
  right. exists laps, lap, v. repeat split; try assumption.
  cbn [assign_drivers].
  destruct (bar_check v times) as [[]|e6]; [|reflexivity].
  cbn [draw on_ax]. destruct (xticklabels_check v) as [[]|e7]; reflexivity.
Qed.

(** When the pie is drawn, its labels are what the local [drivers] holds
    at line 169. Either the Lap Times block rebound it at line 154, and
    the labels are the [Driver] value of the lap that [pick_fastest()]
    selects from the session laps; or that block failed before line 154,
    the Lap Times panel shows its placeholder, and the labels are the
    whole list [session.drivers] bound at line 115. *)
Theorem pie_labels (d d' : F1Dashboard) (frame : nat) (f f' : Figure) :
  fig d = Some f ->
  update_dashboard d frame = Ok d' ->
  fig d' = Some f' ->
  shows_NA (ax4 f') = false ->
  exists positions labels n,
    ax_artists (ax4 f') = [Pie positions labels n] /\
    match labels with
    | inr v => exists laps lap,
        session_laps (session d) = Ok laps /\
        pick_fastest laps = Ok (Some lap) /\
        lap_getitem lap "Driver" = Ok v
    | inl ds =>
        session_drivers (session d) = Ok ds /\ shows_NA (ax3 f') = true
    end.
Proof.
  intros Hf Hu Hf' Hna.
  destruct (refreshed_figure d frame Hf) as (d2 & f2 & Hu2 & Hf2 & Hax).
  rewrite Hu in Hu2. injection Hu2 as <-. rewrite Hf' in Hf2. injection Hf2 as <-.
  change (ax4 f') with (get_ax A4 f') in *. change (ax3 f') with (get_ax A3 f').
  rewrite (Hax A4) in Hna. rewrite (Hax A3), (Hax A4).
  rewrite update_body_ax3. rewrite update_body_final in *.
  destruct (standings_block_cases _ (before_standings_ax4 (session d) f))
    as [H|(laps & lap & positions & labels & n & H1 & H2 & H3 & H4 & H5 & H6)].
  - rewrite H in Hna. discriminate.
  - exists positions, labels, n. rewrite H6. split; [reflexivity|].
    unfold before_standings in H4.
    destruct (lap_times_block_drivers (before_lap_times (session d) f))
      as [[Hd Hs]|(laps' & lap' & v & G1 & G2 & G3 & G4)].
    + rewrite Hd, before_lap_times_drivers in H4.
      unfold drivers_after_positions in H4.
      destruct (session_laps (session d)); [|discriminate].
      destruct (session_drivers (session d)) as [ds|]; [|discriminate].
      injection H4 as <-. split; [reflexivity|]. exact Hs.
    + rewrite G4 in H4. injection H4 as <-. exists laps', lap'.
      split; [|split; assumption].
      apply (before_lap_times_laps_inv (session d) f). exact G1.
Qed.

(** ** One iteration of the polling loop *)

(** What lines 100-102 come to for one driver. *)
Definition live_scatter (s : Session) (driver : Driver) : result Artist :=
  rbind (session_laps s) (fun laps =>
  rbind (pick_driver laps driver) (fun driver_laps =>
  rbind (pick_fastest driver_laps) (fun driver_lap =>
  rbind (call_on "get_pos_data" get_pos_data driver_lap) (fun pos_data =>
  rbind (tel_getitem pos_data "X") (fun xs =>
  rbind (tel_getitem pos_data "Y") (fun ys =>
  rbind (scatter_check xs ys) (fun _ => Ok (Scatter xs ys driver)))))))).

(** The scatters of the drivers for which nothing raised, and the lines
    printed for the others. *)
Definition live_marks (s : Session) (ds : list Driver) : list Artist :=
  flat_map (fun d => match live_scatter s d with
                     | Ok a => [a]
                     | Raise _ => []
                     end) ds.

Definition live_misses (s : Session) (ds : list Driver) : list string :=
  flat_map (fun d => match live_scatter s d with
                     | Ok _ => []
                     | Raise _ => ["No data for " ++ d]
                     end) ds.

Lemma live_rows (ds : list Driver) : forall w,
  session (self (fold_left live_row ds w)) = session (self w) /\
  pyplot (fold_left live_row ds w) =
    extend (pyplot w) (live_marks (session (self w)) ds) /\
  console (self (fold_left live_row ds w)) =
    (console (self w) ++ live_misses (session (self w)) ds)%list /\
  fig (self (fold_left live_row ds w)) = fig (self w) /\
  animation (self (fold_left live_row ds w)) = animation (self w).
Proof.
  induction ds as [|d ds IH]; intros w.
  - simpl. rewrite extend_nil, app_nil_r. auto.
  - cbn [fold_left]. destruct (IH (live_row w d)) as (H1 & H2 & H3 & H4 & H5).
    rewrite H1, H2, H3, H4, H5.
    change (live_row w d) with
      (match live_scatter (session (self w)) d with
       | Ok sc => {| self := self w; pyplot := add_artist sc (pyplot w) |}
       | Raise _ => {| self := print ("No data for " ++ d) (self w);
                       pyplot := pyplot w |}
       end).
    unfold live_marks, live_misses. cbn [flat_map].
    destruct (live_scatter (session (self w)) d) as [sc|e];
      cbn [self pyplot session print console fig animation app].
    + rewrite extend_cons. auto.
    + rewrite <- app_assoc. auto.
Qed.

Lemma live_iteration_run (w : World) (s : Session) (ds : list Driver) :
  session_load true (session (self w)) = Ok s ->
  session_drivers s = Ok ds ->
  exists w',
    live_iteration w = Returned w' /\
    session (self w') = s /\
    pyplot w' = {| ax_title := ""; ax_artists := live_marks s ds ++ [Legend] |} /\
    console (self w') = (console (self w) ++ live_misses s ds)%list /\
    fig (self w') = fig (self w) /\
    animation (self w') = animation (self w).
Proof.
  intros Hl Hd. unfold live_iteration. rewrite Hl, Hd.
  eexists. split; [reflexivity|]. cbn [self pyplot].
  destruct (live_rows ds {| self := with_session s (self w); pyplot := cleared |})
    as (H1 & H2 & H3 & H4 & H5).
  cbn [self pyplot with_session session console fig animation] in *.
  rewrite H1, H2, H3, H4, H5.
  repeat split.
Qed.

(** An iteration of the polling loop that got its reload and its driver
    list always reaches its end: a driver for which a call raises is
    skipped with the line "No data for <driver>" and the drivers after it
    are still drawn. What the iteration has drawn is the scatters of this
    iteration only, in the order of the drivers, then the legend. *)
Theorem live_iteration_contents (w : World) (s : Session) (ds : list Driver) :
  session_load true (session (self w)) = Ok s ->
  session_drivers s = Ok ds ->
  exists w',
    live_iteration w = Returned w' /\
    session (self w') = s /\
    ax_artists (pyplot w') = (live_marks s ds ++ [Legend])%list /\
    console (self w') = (console (self w) ++ live_misses s ds)%list.
Proof.
  intros Hl Hd.
  destruct (live_iteration_run w Hl Hd) as (w' & H1 & H2 & H3 & H4 & _).
  exists w'. rewrite H3. auto.
Qed.

(** ** The one-shot plot *)

(** What lines 77-83 come to for one driver: a scatter, nothing when the
    driver has no laps or no telemetry, or the exception of the first call
    that raised. *)
Definition latest_scatter (laps : Laps) (driver : Driver) : result (option Artist) :=
  rbind (pick_driver laps driver) (fun driver_laps =>
  if laps_empty driver_laps then Ok None
  else
    rbind (iloc_last driver_laps) (fun driver_lap =>
    rbind (get_car_data driver_lap) (fun car_data =>
    rbind (add_distance car_data) (fun pos_data =>
    if tel_empty pos_data then Ok None
    else
      rbind (tel_getitem pos_data "X") (fun xs =>
      rbind (tel_getitem pos_data "Y") (fun ys =>
      rbind (scatter_check xs ys) (fun _ =>
      Ok (Some (Scatter xs ys driver))))))))).

Fixpoint latest_run (laps : Laps) (ds : list Driver) : result (list Artist) :=
  match ds with
  | [] => Ok []
  | d :: r =>
      rbind (latest_scatter laps d) (fun o =>
      rbind (latest_run laps r) (fun arts =>
      Ok (match o with Some a => a :: arts | None => arts end)))
  end.

Lemma scatter_latest_step laps d (ds : list Driver) a :
  scatter_latest laps (d :: ds) a =
  rbind (latest_scatter laps d) (fun o =>
    scatter_latest laps ds
      (match o with Some x => add_artist x a | None => a end)).
Proof.
  cbn [scatter_latest]. unfold latest_scatter, rbind.
  destruct (pick_driver laps d) as [dl|e]; [|reflexivity].
  destruct (laps_empty dl); [reflexivity|].
  destruct (iloc_last dl) as [lap|e]; [|reflexivity].
  destruct (get_car_data lap) as [cd|e]; [|reflexivity].
  destruct (add_distance cd) as [pos|e]; [|reflexivity].
  destruct (tel_empty pos); [reflexivity|].
  destruct (tel_getitem pos "X") as [xs|e]; [|reflexivity].
  destruct (tel_getitem pos "Y") as [ys|e]; [|reflexivity].
  destruct (scatter_check xs ys) as [[]|e]; reflexivity.
Qed.

Lemma scatter_latest_run laps (ds : list Driver) : forall a,
  scatter_latest laps ds a =
  rbind (latest_run laps ds) (fun arts => Ok (extend a arts)).
Proof.
  induction ds as [|d ds IH]; intros a.
  - simpl. rewrite extend_nil. reflexivity.
  - rewrite scatter_latest_step. cbn [latest_run].
    destruct (latest_scatter laps d) as [[x|]|e]; cbn [rbind]; [| |reflexivity];
      rewrite IH; destruct (latest_run laps ds) as [arts|e']; cbn [rbind];
      rewrite ?extend_cons; reflexivity.
Qed.

Lemma plot_driver_positions_run (d : F1Dashboard) laps (ds : list Driver) :
  session_laps (session d) = Ok laps ->
  session_drivers (session d) = Ok ds ->
  plot_driver_positions d =
  rbind (latest_run laps ds) (fun arts =>
    Ok ({| ax_title := "Driver Positions - " ++ event_name d ++ " "
                         ++ string_of_Z (year d);
           ax_artists := ax_artists (fst (track_outline (session d))) ++ arts ++
                         [XLabel "X Coordinate"; YLabel "Y Coordinate"; Legend] |},
        snd (track_outline (session d)))).
Proof.
  intros Hl Hd. unfold plot_driver_positions. rewrite Hl, Hd. cbn [rbind].
  destruct (track_outline (session d)) as [a0 out]. cbn [fst snd].
  rewrite scatter_latest_run.
  destruct (latest_run laps ds) as [arts|e]; [|reflexivity].
  cbn [rbind]. unfold set_title, add_artist, extend. cbn [ax_title ax_artists].
  rewrite <- !app_assoc. reflexivity.
Qed.

(** The one-shot plot draws, after the track outline if there is one, one
    scatter for every driver that has laps and telemetry, in the order of
    [session.drivers], and ends with the axis labels and the legend; a
    driver without laps or with empty telemetry is passed over in silence.
    Nothing is caught in its loop: the first call that raises for a driver
    ends the whole plot with that exception. *)
Theorem plot_driver_positions_contents (d : F1Dashboard) (laps : Laps)
    (ds : list Driver) :
  session_laps (session d) = Ok laps ->
  session_drivers (session d) = Ok ds ->
  plot_driver_positions d =
  rbind (latest_run laps ds) (fun arts =>
    Ok ({| ax_title := "Driver Positions - " ++ event_name d ++ " "
                         ++ string_of_Z (year d);
           ax_artists := ax_artists (fst (track_outline (session d))) ++ arts ++
                         [XLabel "X Coordinate"; YLabel "Y Coordinate"; Legend] |},
        snd (track_outline (session d)))).
Proof. apply plot_driver_positions_run. Qed.

(** ** The example usage *)

(** Lines 185-186: the dashboard is built and the one-shot plot is called
    on it. [Raise] is a constructor that raised: there is no object. *)
Definition example_usage : result (Outcome World) :=
  rbind (init 2024 "Japan" true) (fun dashboard =>
  Ok (call 0 m_plot_driver_positions 0 {| self := dashboard; pyplot := cleared |})).

(** When the session cannot be loaded and its laps cannot be read, the
    example usage prints the load error, builds an object without figure
    and timer, and then ends with the exception of [session.laps], raised
    out of [plot_driver_positions]. *)
Theorem example_usage_without_data (s : Session) (e e' : exn) :
  get_session 2024 "Japan" "Race" = Ok s ->
  session_load false s = Raise e ->
  session_laps s = Raise e' ->
  exists d,
    example_usage = Ok (Raised e' {| self := d; pyplot := cleared |}) /\
    console d = ["Error loading session: " ++ exn_msg e] /\
    fig d = None /\ animation d = None.
Proof.
  intros Hs Hl Hp. unfold example_usage, init. rewrite Hs, Hl. cbn [rbind].
  eexists. split.
  - cbn [call self]. unfold plot_driver_positions. cbn [session]. rewrite Hp.
    reflexivity.
  - cbn [console fig animation]. auto.
Qed.

(** ** The constructor *)

(** Once [session.load()] has returned, the constructor builds the whole
    dashboard whatever the circuit calls do: three blank panels, the timer
    at 5000 ms, and a first panel titled "Track Layout" that holds the
    track when [get_circuit()] and [plot_track] went through, in which
    case [self.track_plot] is set, and the "N/A" text otherwise, in which
    case the attribute [track_plot] is never assigned. *)
Theorem constructor_builds_dashboard (yr : Z) (ev : string) (dm : bool)
    (s s' : Session) :
  get_session yr ev "Race" = Ok s ->
  session_load false s = Ok s' ->
  exists d f,
    init yr ev dm = Ok d /\ session d = s' /\ fig d = Some f /\
    animation d = Some {| interval := 5000; next_frame := 0 |} /\
    console d = [] /\
    ax_title (ax1 f) = "Track Layout" /\
    ax2 f = cleared /\ ax3 f = cleared /\ ax4 f = cleared /\
    suptitle f = "F1 Live Dashboard - " ++ string_of_Z yr ++ " " ++ ev /\
    facecolor f = (if dm then "black" else "white") /\
    ((exists c v, get_circuit s' = Ok c /\ plot_track c = Ok v /\
                  track_plot d = Some v /\ ax_artists (ax1 f) = [Track v]) \/
     (track_plot d = None /\ ax_artists (ax1 f) = [centered "N/A"])).
Proof.
  intros Hs Hl. unfold init. rewrite Hs, Hl. unfold track_layout.
  destruct (get_circuit s') as [c|e] eqn:Hc.
  - destruct (plot_track c) as [v|e] eqn:Hp.
    + eexists. eexists. split; [reflexivity|]. cbn.
      repeat (split; [reflexivity|]). left. exists c, v. auto.
    + eexists. eexists. split; [reflexivity|]. cbn.
      repeat (split; [reflexivity|]). right. auto.
  - eexists. eexists. split; [reflexivity|]. cbn.
    repeat (split; [reflexivity|]). right. auto.
Qed.

End Engine.

(** * Further runs over the data model of the spec *)

Module Runs.
Import Ref Scenarios.

(** ** The polling loop asks the provider on every iteration *)

Lemma live_iteration_ref p fault (w : @World (lib p fault)) (snap : Snapshot) :
  feed (session (self w)) (loads (session (self w))) = Data snap ->
  exists w',
    live_iteration w = Returned w' /\
    loads (session (self w')) = S (loads (session (self w))) /\
    feed (session (self w')) = feed (session (self w)) /\
    current (session (self w')) = Some snap.
Proof.
  intros Hd.
  destruct (@live_iteration_run (lib p fault) w
              {| feed := feed (session (self w));
                 loads := S (loads (session (self w)));
                 current := Some snap |}
              (map string_of_Z (participants snap)))
    as (w' & Hw & Hs & _).
  - cbn [session_load lib]. unfold r_load. rewrite Hd. reflexivity.
  - reflexivity.
  - exists w'. split; [assumption|]. rewrite Hs. auto.
Qed.

Lemma polling_loop_run p fault (n : nat) : forall w : @World (lib p fault),
  (forall k, exists snap, feed (session (self w)) k = Data snap) ->
  exists w',
    fetch_live_positions n w = Running w' /\
    loads (session (self w')) = (loads (session (self w)) + n)%nat /\
    feed (session (self w')) = feed (session (self w)).
Proof.
  induction n as [|n IH]; intros w Hp.
  - exists w. simpl. rewrite Nat.add_0_r. auto.
  - destruct (Hp (loads (session (self w)))) as (snap & Hd).
    destruct (live_iteration_ref w Hd) as (w1 & H1 & Hl & Hf & _).
    destruct (IH w1) as (w' & H' & Hl' & Hf').
    { intros k. rewrite Hf. apply Hp. }
    exists w'. cbn [fetch_live_positions]. rewrite H1.
    split; [assumption|]. split; [|congruence].
    rewrite Hl', Hl. rewrite Nat.add_succ_r. reflexivity.
Qed.

(** As long as the provider answers with data, the polling loop does not
    come back, and after [n] iterations it has called [session.load] once
    more for each of them. *)
Theorem polling_loop_reloads p fault (n : nat) (w : @World (lib p fault)) :
  (forall k, exists snap, feed (session (self w)) k = Data snap) ->
  exists w',
    fetch_live_positions n w = Running w' /\
    loads (session (self w')) = (loads (session (self w)) + n)%nat /\
    feed (session (self w')) = feed (session (self w)).
Proof. apply polling_loop_run. Qed.

Lemma polling_loop_reloads_witness :
  exists w',
    fetch_live_positions 3 worldA = Running w' /\
    loads (session (self w')) = (loads (session (self worldA)) + 3)%nat /\
    feed (session (self w')) = feed (session (self worldA)).
Proof.
  apply (@polling_loop_reloads (constant scenarioA) None 3%nat worldA).
  intros k. exists scenarioA. reflexivity.
Defined.

(** ** Witnesses *)

Lemma callback_never_raises_witness :
  exists d' f',
    update_dashboard (dashboard scenarioA) 0 = Ok d' /\ fig d' = Some f' /\
    session d' = session (dashboard scenarioA) /\
    animation d' = animation (dashboard scenarioA) /\
    console d' = console (dashboard scenarioA) /\
    track_plot d' = track_plot (dashboard scenarioA) /\
    year d' = year (dashboard scenarioA) /\
    event_name d' = event_name (dashboard scenarioA) /\
    facecolor f' = facecolor (figure_of (dashboard scenarioA)) /\
    suptitle f' = suptitle (figure_of (dashboard scenarioA)) /\
    tight f' = true.
Proof.
  apply (@callback_never_raises (lib (constant scenarioA) None)
           (dashboard scenarioA) 0%nat (figure_of (dashboard scenarioA))).
  reflexivity.
Defined.

Lemma constructed_dashboard_keeps_ticking_witness :
  exists d,
    timer_fires 3 (dashboard scenarioA) = Ok d /\
    session d = session (dashboard scenarioA) /\
    ((fig (dashboard scenarioA) = None /\ d = dashboard scenarioA) \/
     (fig (dashboard scenarioA) <> None /\ fig d <> None /\ ticks d = 3%nat)).
Proof.
  apply (@constructed_dashboard_keeps_ticking (lib (constant scenarioA) None)
           2024 "Japan" true (dashboard scenarioA) 3%nat).
  vm_compute. reflexivity.
Defined.

Lemma picture_settled_after_first_tick_witness :
  exists d1 dn,
    timer_fires 1 (dashboard scenarioA) = Ok d1 /\
    timer_fires 3 (dashboard scenarioA) = Ok dn /\
    fig dn = fig d1.
Proof.
  apply (@picture_settled_after_first_tick (lib (constant scenarioA) None)
           (dashboard scenarioA) (figure_of (dashboard scenarioA))
           {| interval := 5000; next_frame := 0 |} 2%nat); reflexivity.
Defined.

Lemma positions_panel_contents_witness :
  exists d' f',
    update_dashboard (dashboard missing_laps) 0 = Ok d' /\ fig d' = Some f' /\
    ax1 f' = {| ax_title := "Live Driver Positions";
                ax_artists := positions_artists (session (dashboard missing_laps)) |} /\
    forall v, ~ In (Track v) (ax_artists (ax1 f')).
Proof.
  apply (@positions_panel_contents (lib (constant missing_laps) None)
           (dashboard missing_laps) 0%nat (figure_of (dashboard missing_laps))).
  reflexivity.
Defined.

(** What the Positions panel holds for a snapshot in which the second
    participant has no laps. *)
Example positions_artists_missing_laps :
  positions_artists (session (dashboard missing_laps)) =
    [Scatter (L := lib (constant missing_laps) None) [CInt 1] [CInt 1] "7";
     centered (L := lib (constant missing_laps) None)
       "Error: 'NoneType' object has no attribute 'get_pos_data'"].
Proof. vm_compute. reflexivity. Qed.

Lemma tyre_panel_contents_witness :
  exists d' f',
    update_dashboard (dashboard scenarioA) 0 = Ok d' /\ fig d' = Some f' /\
    ax2 f' = {| ax_title := "Tyre Strategies";
                ax_artists :=
                  (fst (tyre_rows (L := lib (constant scenarioA) None)
                          [(KInt 1, ["Soft"; "Medium"]);
                           (KInt 44, ["Medium"; "Hard"])]) ++
                   (if snd (tyre_rows (L := lib (constant scenarioA) None)
                              [(KInt 1, ["Soft"; "Medium"]);
                               (KInt 44, ["Medium"; "Hard"])])
                    then []
                    else [centered (L := lib (constant scenarioA) None) "N/A"]))%list |}.
Proof.
  apply (@tyre_panel_contents (lib (constant scenarioA) None)
           (dashboard scenarioA) 0%nat (figure_of (dashboard scenarioA))
           (laps scenarioA)); reflexivity.
Defined.

Lemma titles_after_tick_witness :
  exists d' f',
    update_dashboard dashboard_no_data 0 = Ok d' /\ fig d' = Some f' /\
    ax_title (ax1 f') = "Live Driver Positions" /\
    ax_title (ax2 f') = "Tyre Strategies" /\
    ax_title (ax3 f') = "Current Lap Times" /\
    ax_title (ax4 f') = "Driver Positions".
Proof.
  apply (@titles_after_tick (lib (fun _ => NoData) None) dashboard_no_data 0%nat
           (figure_of dashboard_no_data)).
  reflexivity.
Defined.

Lemma pie_labels_witness :
  exists positions labels n,
    ax_artists (ax4 (figure_of (updated (dashboard scenarioA)))) =
      [Pie positions labels n] /\
    match labels with
    | inr v => exists laps lap,
        session_laps (session (dashboard scenarioA)) = Ok laps /\
        pick_fastest laps = Ok (Some lap) /\
        lap_getitem lap "Driver" = Ok v
    | inl ds =>
        session_drivers (session (dashboard scenarioA)) = Ok ds /\
        shows_NA (ax3 (figure_of (updated (dashboard scenarioA)))) = true
    end.
Proof.
  apply (@pie_labels (lib (constant scenarioA) None)
           (dashboard scenarioA) (updated (dashboard scenarioA)) 0%nat
           (figure_of (dashboard scenarioA))
           (figure_of (updated (dashboard scenarioA))));
    vm_compute; reflexivity.
Defined.

(** The world of the example usage on the snapshot with a participant
    without laps. *)
Definition world_missing : @World (lib (constant missing_laps) None) :=
  {| self := dashboard missing_laps; pyplot := cleared |}.

Definition reloaded_missing : RSession :=
  {| feed := constant missing_laps; loads := 2; current := Some missing_laps |}.

Lemma live_iteration_contents_witness :
  exists w',
    live_iteration world_missing = Returned w' /\
    session (self w') = reloaded_missing /\
    ax_artists (pyplot w') =
      (live_marks (L := lib (constant missing_laps) None)
         reloaded_missing ["7"; "8"] ++ [Legend])%list /\
    console (self w') =
      (console (self world_missing) ++
       live_misses (L := lib (constant missing_laps) None)
         reloaded_missing ["7"; "8"])%list.
Proof.
  apply (@live_iteration_contents (lib (constant missing_laps) None)
           world_missing reloaded_missing ["7"; "8"]); reflexivity.
Defined.

(** The driver without laps is announced on the console and the other one
    is drawn. *)
Example live_misses_missing_laps :
  live_misses (L := lib (constant missing_laps) None) reloaded_missing ["7"; "8"]
    = ["No data for 8"] /\
  live_marks (L := lib (constant missing_laps) None) reloaded_missing ["7"; "8"]
    = [Scatter (L := lib (constant missing_laps) None) [CInt 1] [CInt 1] "7"].
Proof. split; vm_compute; reflexivity. Qed.

Lemma plot_driver_positions_contents_witness :
  plot_driver_positions (dashboard scenarioA) =
  rbind (latest_run (L := lib (constant scenarioA) None) (laps scenarioA) ["1"; "44"])
    (fun arts =>
       Ok ({| ax_title := "Driver Positions - "
                            ++ event_name (dashboard scenarioA) ++ " "
                            ++ string_of_Z (year (dashboard scenarioA));
              ax_artists :=
                (ax_artists (fst (track_outline (session (dashboard scenarioA)))) ++
                 arts ++
                 [XLabel (L := lib (constant scenarioA) None) "X Coordinate";
                  YLabel (L := lib (constant scenarioA) None) "Y Coordinate";
                  Legend (L := lib (constant scenarioA) None)])%list |},
           snd (track_outline (session (dashboard scenarioA))))).
Proof.
  apply (@plot_driver_positions_contents (lib (constant scenarioA) None)
           (dashboard scenarioA) (laps scenarioA) ["1"; "44"]); reflexivity.
Defined.

Lemma example_usage_without_data_witness :
  exists d : @F1Dashboard (lib down None),
    example_usage = Ok (Raised (Exn "DataNotLoadedError"
                          "The data you are trying to access has not been loaded yet.")
                          {| self := d; pyplot := cleared |}) /\
    console d = ["Error loading session: " ++
                 exn_msg (Exn "ConnectionError" "session unreachable")] /\
    fig d = None /\ animation d = None.
Proof.
  apply (@example_usage_without_data (lib down None)
           {| feed := down; loads := 0; current := None |}
           (Exn "ConnectionError" "session unreachable")
           (Exn "DataNotLoadedError"
              "The data you are trying to access has not been loaded yet."));
    reflexivity.
Defined.

(** The provider of Scenario A with a [set_xticklabels] that rejects its
    labels, as matplotlib does when their number is not the number of
    ticks. *)
Definition strict_ticks : Library :=
  let L0 := lib (constant scenarioA) None in {|
  Session := RSession;
  Laps := list LapRecord;
  Lap := LapRecord;
  Telemetry := list (Z * Z);
  Circuit := list (Z * Z);
  Value := Column;
  get_session := @get_session L0;
  session_load := @session_load L0;
  session_laps := @session_laps L0;
  session_drivers := @session_drivers L0;
  get_circuit := @get_circuit L0;
  plot_track := @plot_track L0;
  circuit_getitem := @circuit_getitem L0;
  pick_driver := @pick_driver L0;
  pick_fastest := @pick_fastest L0;
  laps_empty := @laps_empty L0;
  iloc_last := @iloc_last L0;
  tire_strategies := @tire_strategies L0;
  lap_getitem := @lap_getitem L0;
  get_pos_data := @get_pos_data L0;
  get_car_data := @get_car_data L0;
  add_distance := @add_distance L0;
  tel_empty := @tel_empty L0;
  tel_getitem := @tel_getitem L0;
  dt_total_seconds := @dt_total_seconds L0;
  py_len := @py_len L0;
  scatter_check := @scatter_check L0;
  plot_check := @plot_check L0;
  bar_check := @bar_check L0;
  xticklabels_check := fun _ =>
    Raise (ValueError "the number of labels does not match the number of ticks");
  pie_check := @pie_check L0
|}.

Definition dashboard_strict : @F1Dashboard strict_ticks :=
  @Build_F1Dashboard strict_ticks 2024 "Japan"
    (loaded (constant scenarioA) (Some scenarioA))
    (Some (@blank_figure strict_ticks true "F1 Live Dashboard - 2024 Japan"))
    None (Some {| interval := 5000; next_frame := 0 |}) [].

Lemma lap_times_panel_contents_witness :
  exists d' f',
    update_dashboard dashboard_strict 0 = Ok d' /\ fig d' = Some f' /\
    ax3 f' = {| ax_title := "Current Lap Times";
                ax_artists :=
                  [Bar (L := strict_ticks) [CStr "44"] [CNum (91800 # 1000)];
                   centered (L := strict_ticks) "N/A"] |}.
Proof.
  apply (@lap_times_panel_contents strict_ticks dashboard_strict 0%nat
           (@blank_figure strict_ticks true "F1 Live Dashboard - 2024 Japan")
           (laps scenarioA)
           {| participant := 44; lapTime := Some 91800;
              tireCompoundSequence := ["Medium"; "Hard"];
              position := 2; positionSamples := [(30, 40)] |}
           [CDur 91800] [CNum (91800 # 1000)] [CStr "44"]); reflexivity.
Defined.

Lemma constructor_builds_dashboard_witness :
  exists (d : @F1Dashboard (lib (constant scenarioA) None)) f,
    init 2024 "Japan" true = Ok d /\
    session d = loaded (constant scenarioA) (Some scenarioA) /\
    fig d = Some f /\
    animation d = Some {| interval := 5000; next_frame := 0 |} /\
    console d = [] /\
    ax_title (ax1 f) = "Track Layout" /\
    ax2 f = cleared /\ ax3 f = cleared /\ ax4 f = cleared /\
    suptitle f = "F1 Live Dashboard - " ++ string_of_Z 2024 ++ " " ++ "Japan" /\
    facecolor f = "black" /\
    ((exists c v,
        get_circuit (Library := lib (constant scenarioA) None)
          (loaded (constant scenarioA) (Some scenarioA)) = Ok c /\
        plot_track c = Ok v /\
                  track_plot d = Some v /\ ax_artists (ax1 f) = [Track v]) \/
     (track_plot d = None /\ ax_artists (ax1 f) = [centered "N/A"])).
Proof.
  apply (@constructor_builds_dashboard (lib (constant scenarioA) None)
           2024 "Japan" true
           {| feed := constant scenarioA; loads := 0; current := None |}
           (loaded (constant scenarioA) (Some scenarioA))); reflexivity.
Defined.

End Runs.
